(** * CSV upload pipeline: creation guard, finalization hook, status projection

    A shallow embedding of the two Next.js route modules of the web app:

    - [api/upload/[[...slug]]/route.ts]: the tus server configuration with
      its two hooks, [onUploadCreate] and [onUploadFinish], and the HTTP verb
      wrappers around [server.handleWeb];
    - [api/upload-status/[id]/route.ts]: the [GET] handler that projects an
      upload's metadata to one of ["error"], ["success"], ["unknown"];
    - the upload page ([page.tsx]): its [onError] and [onSuccess] handlers,
      [checkProcessingStatus], and the conditions under which the status
      paragraph, the progress bar and the reset button are rendered.

    JavaScript's effects are made explicit: a handler is a function from a
    [World] (the bucket's uploads and the console) to a completion (a value
    or a thrown value) and the next [World]. *)

From Stdlib Require Import ZArith Ascii String List Bool Lia.
From stdpp Require Import base option strings gmap pretty.

Local Open Scope Z_scope.
Local Open Scope string_scope.

(** ** JavaScript values *)

Module Js.

(** What [JSON.parse] can produce and [JSON.stringify] consumes.  Numbers
    are kept as integers: the handlers only test them for truthiness. *)
#[warnings="-register-all"]
Inductive Json : Type :=
| JNull
| JBool (b : bool)
| JNum (n : Z)
| JStr (s : string)
| JArr (items : list Json)
| JObj (fields : list (string * Json)).

(** A value read from a property: [None] is [undefined]. *)
Definition Value := option Json.

(** [ToBoolean] on the values above. *)
Definition truthy (v : Value) : bool :=
  match v with
  | None => false
  | Some JNull => false
  | Some (JBool b) => b
  | Some (JNum n) => negb (Z.eqb n 0)
  | Some (JStr s) => negb (String.eqb s EmptyString)
  | Some (JArr _) => true
  | Some (JObj _) => true
  end.

(** The member [k] of an object; the members of a parsed object have
    distinct keys. *)
Fixpoint assoc (k : string) (fields : list (string * Json)) : Value :=
  match fields with
  | [] => None
  | (k', v) :: rest => if String.eqb k k' then Some v else assoc k rest
  end.

(** An [Error] instance as the handlers observe it. *)
Record JsError : Type := mkError {
  ctor : string;      (* error.constructor.name *)
  name : string;      (* error.name *)
  message : string;   (* error.message *)
  stack : string      (* error.stack *)
}.

(** The values thrown inside the handlers: an object literal
    [{ status_code, body }] or an [Error] instance. *)
Inductive Thrown : Type :=
| ThrownObject (status_code : Z) (body : Json)
| ThrownError (e : JsError).

Definition typeError (msg : string) : Thrown :=
  ThrownError (mkError "TypeError" "TypeError" msg ("TypeError: " ++ msg)).

Definition syntaxError (msg : string) : Thrown :=
  ThrownError (mkError "SyntaxError" "SyntaxError" msg ("SyntaxError: " ++ msg)).

(** What [fetch] rejects with when the [AbortController] fires. *)
Definition abortError : Thrown :=
  ThrownError (mkError "DOMException" "AbortError" "This operation was aborted"
                       "AbortError: This operation was aborted").

(** What [fetch] rejects with when no connection can be made. *)
Definition fetchFailed : Thrown := typeError "fetch failed".

(** [value.key] for a parsed JSON value: reading a property of [null]
    throws, an object yields its field, any other value yields
    [undefined]. *)
Definition getProp (v : Json) (k : string) : Thrown + Value :=
  match v with
  | JNull => inl (typeError ("Cannot read properties of null (reading '" ++ k ++ "')"))
  | JObj fields => inr (assoc k fields)
  | _ => inr None
  end.

(** [a || b] where [b] is a string literal. *)
Definition orElse (v : Value) (dflt : string) : Json :=
  if truthy v then match v with Some j => j | None => JStr dflt end
  else JStr dflt.

(** [s.includes(sub)] *)
Fixpoint includes (s sub : string) : bool :=
  String.prefix sub s ||
  match s with
  | EmptyString => false
  | String _ rest => includes rest sub
  end.

(** Number-to-string of an integer inside a template literal. *)
Definition showInt (n : Z) : string := pretty n.

End Js.

Import Js.

(** ** Uploads and the datastore *)

Module Tus.

(** A metadata value: tus types them as [string | null]. *)
Inductive MetaVal : Type :=
| MNull
| MStr (s : string).

(** [Upload] of [@tus/server]: [size] is [undefined] for a deferred
    length, [metadata] is optional. *)
Record Upload : Type := mkUpload {
  id : string;
  size : option Z;
  offset : Z;
  metadata : option (gmap string MetaVal)
}.

(** [upload.metadata?.key] and [metadata.key]: [None] is [undefined]. *)
Definition metaField (m : option (gmap string MetaVal)) (k : string) : option MetaVal :=
  match m with
  | None => None
  | Some fields => fields !! k
  end.

(** Truthiness of a metadata field: only a non-empty string is truthy. *)
Definition metaTruthy (v : option MetaVal) : bool :=
  match v with
  | Some (MStr s) => negb (String.eqb s EmptyString)
  | _ => false
  end.

Definition metaJson (v : MetaVal) : Json :=
  match v with
  | MNull => JNull
  | MStr s => JStr s
  end.

End Tus.

Import Tus.

(** ** Worlds and effects *)

Module Effects.

Inductive Level : Type := LogLevel | ErrorLevel.

(** One argument of a [console.log] / [console.error] call. *)
Inductive LogArg : Type :=
| AStr (s : string)
| AJson (j : Json)
| AThrown (e : Thrown)
| AUndefined.

Record LogEntry : Type := mkEntry { level : Level; args : list LogArg }.

(** The state shared by the two route modules: the uploads kept in the
    bucket (both modules build an [S3Store] on the same bucket), whether
    the bucket can be reached, and the process console. *)
Record World : Type := mkWorld {
  uploads : gmap string Upload;
  reachable : bool;
  console : list LogEntry
}.

Inductive Completion (A : Type) : Type :=
| Returned (a : A)
| Raised (e : Thrown).
Arguments Returned {A} a.
Arguments Raised {A} e.

Definition Eff (A : Type) : Type := World -> Completion A * World.

Definition ret {A} (a : A) : Eff A := fun w => (Returned a, w).

Definition throw {A} (e : Thrown) : Eff A := fun w => (Raised e, w).

Definition bind {A B} (m : Eff A) (k : A -> Eff B) : Eff B :=
  fun w =>
    match m w with
    | (Returned a, w') => k a w'
    | (Raised e, w') => (Raised e, w')
    end.

(** [try { m } catch (error) { handler }] *)
Definition tryCatch {A} (m : Eff A) (handler : Thrown -> Eff A) : Eff A :=
  fun w =>
    match m w with
    | (Returned a, w') => (Returned a, w')
    | (Raised e, w') => handler e w'
    end.

(** Lift a pure step that may throw. *)
Definition liftThrow {A} (r : Thrown + A) : Eff A :=
  match r with
  | inl e => throw e
  | inr a => ret a
  end.

Definition consoleWrite (l : Level) (xs : list LogArg) : Eff unit :=
  fun w => (Returned tt,
            {| uploads := uploads w;
               reachable := reachable w;
               console := (console w ++ [mkEntry l xs])%list |}).

Definition consoleLog := consoleWrite LogLevel.
Definition consoleError := consoleWrite ErrorLevel.

(** What the store's lookup rejects with when nothing is stored under the
    id: the library's file-not-found error, an object
    [{ status_code: 404, body }]. *)
Definition fileNotFound : Thrown :=
  ThrownObject 404
    (JStr ("The file for this url was not found"
           ++ String (Ascii.ascii_of_nat 10) EmptyString)).

(** Modelled from the spec: the Chunk Store's lookup behind
    [s3Store.getUpload(id)]; the store is the tus library's and is absent
    from the sources.  The lookup resolves to the upload stored under [id]
    and rejects when the bucket cannot be reached.  On an id under which
    nothing is stored the spec is silent: the library rejects with
    [fileNotFound], it never resolves to a falsy value. *)
Definition getUpload (uploadId : string) : Eff (option Upload) :=
  fun w =>
    if reachable w then
      match uploads w !! uploadId with
      | Some upload => (Returned (Some upload), w)
      | None => (Raised fileNotFound, w)
      end
    else (Raised (typeError "fetch failed"), w).

End Effects.

Import Effects.

Declare Scope eff_scope.
Delimit Scope eff_scope with eff.
Notation "'let*' x ':=' m 'in' k" := (bind m (fun x => k))
  (at level 10, x name, m at level 100, k at level 200) : eff_scope.
Notation "'do*' m 'in' k" := (bind m (fun _ => k))
  (at level 10, m at level 100, k at level 200) : eff_scope.
Local Open Scope eff_scope.

(** ** The Processing Service as seen through [fetch] *)

Module Net.

(** The request handed to [fetch]; the body is kept as the value given to
    [JSON.stringify]. *)
Record Request : Type := mkRequest {
  url : string;
  method : string;
  headers : list (string * string);
  reqBody : Json
}.

(** A received response: its status line, its body text, and what
    [response.json()] makes of that text ([None]: not JSON). *)
Record Response : Type := mkResponse {
  status : Z;
  text : string;
  json : option Json
}.

(** [response.ok] *)
Definition ok (r : Response) : bool := (200 <=? status r)%Z && (status r <=? 299)%Z.

(** Modelled from the spec: the Processing Service is an external
    collaborator whose call ends in a result or in a transport failure.
    A response arrives before the 30000 ms abort, or the abort fires first,
    or no connection is made. *)
Inductive ServiceOutcome : Type :=
| Responds (r : Response)
| TimesOut
| ConnectionFails.

Definition Network : Type := Request -> ServiceOutcome.

(** [await fetch(url, { method, headers, body, signal })] *)
Definition fetch (net : Network) (req : Request) : Eff Response :=
  match net req with
  | Responds r => ret r
  | TimesOut => throw abortError
  | ConnectionFails => throw fetchFailed
  end.

(** [await response.json()] *)
Definition responseJson (r : Response) : Eff Json :=
  match json r with
  | Some j => ret j
  | None => throw (syntaxError "Unexpected token in JSON")
  end.

End Net.

Import Net.

(** ** [api/upload/[[...slug]]/route.ts] *)

Module UploadRoute.

(** What [onUploadCreate] resolves to: [{ metadata }]. *)
Record CreateReply : Type := mkCreateReply {
  replyMetadata : option (gmap string MetaVal)
}.

(** What [onUploadFinish] resolves to: an object whose optional
    [status_code] and [body] would override the engine's answer. *)
Record FinishReply : Type := mkFinishReply {
  replyStatus : option Z;
  replyBody : option string
}.

(** The object literal [{}]. *)
Definition emptyReply : FinishReply :=
  {| replyStatus := None; replyBody := None |}.

(** [v !== lit] for a metadata field and a string literal. *)
Definition differsFrom (v : option MetaVal) (lit : string) : bool :=
  match v with
  | Some (MStr s) => negb (String.eqb s lit)
  | _ => true
  end.

Definition MAX_CSV_SIZE : Z := 50 * 1024 * 1024.

(** [upload.size && upload.size > MAX_CSV_SIZE] *)
Definition oversized (sz : option Z) : bool :=
  match sz with
  | None => false
  | Some n => negb (Z.eqb n 0) && (MAX_CSV_SIZE <? n)%Z
  end.

(** [onUploadCreate(req, upload)]; the request is not inspected. *)
Definition onUploadCreate (upload : Upload) : Eff CreateReply :=
  if differsFrom (metaField (metadata upload) "filetype") "text/csv" then
    throw (ThrownObject 400
      (JStr "Only CSV files are allowed. Please upload a file with 'text/csv' content type."))
  else if oversized (size upload) then
    throw (ThrownObject 413
      (JStr ("CSV file too large. Max size is "
             ++ showInt (MAX_CSV_SIZE / (1024 * 1024)) ++ "MB.")))
  else
    ret {| replyMetadata := metadata upload |}.

(** The request sent to the Processing Service for one upload. *)
Definition processRequest (upload : Upload) : Request :=
  {| url := "http://localhost:3000/process-csv";
     method := "POST";
     headers := [("Content-Type", "application/json")];
     reqBody := JObj [("s3_key", JStr (id upload)); ("table_name", JStr (id upload))] |}.

(** The [try] block of [onUploadFinish]. *)
Definition finishTry (net : Network) (upload : Upload) : Eff unit :=
  do* consoleLog [AStr "Starting CSV processing for file:"; AStr (id upload)] in
  let request := processRequest upload in
  do* consoleLog [AStr "Sending request to process-csv with body:"; AJson (reqBody request)] in
  let* processingResponse := fetch net request in
  if negb (ok processingResponse) then
    let errorText := text processingResponse in
    do* consoleError [AStr ("CSV Processing failed: " ++ showInt (status processingResponse)
                            ++ " - " ++ errorText)] in
    throw (ThrownObject 500 (JStr ("Failed to process CSV: " ++ errorText)))
  else
    let* processingResult := responseJson processingResponse in
    do* consoleLog [AStr "CSV Processing successful:"; AJson processingResult] in
    let* success := liftThrow (getProp processingResult "success") in
    if negb (truthy success) then
      let* reported := liftThrow (getProp processingResult "error") in
      throw (ThrownObject 500 (orElse reported "CSV processing failed"))
    else
      consoleLog [AStr "CSV processing completed successfully"].

(** ["body" in error && typeof error.body === "string"] *)
Definition bodyString (error : Thrown) : option string :=
  match error with
  | ThrownObject _ (JStr b) => Some b
  | _ => None
  end.

(** ["message" in error && typeof error.message === "string"] *)
Definition messageString (error : Thrown) : option string :=
  match error with
  | ThrownError e => Some (message e)
  | ThrownObject _ _ => None
  end.

(** [error instanceof Error] *)
Definition asError (error : Thrown) : option JsError :=
  match error with
  | ThrownError e => Some e
  | ThrownObject _ _ => None
  end.

(** The [errorMessage] computed in the [catch] block.  Both kinds of thrown
    value are non-null objects, so the outer [typeof] test passes. *)
Definition describeError (error : Thrown) : string :=
  let errorMessage := "Unknown error during CSV processing" in
  match bodyString error with
  | Some b => b
  | None =>
    match messageString error with
    | Some m => m
    | None =>
      match asError error with
      | Some e =>
        if String.eqb (name e) "AbortError" then
          "CSV processing timed out. Please try again with a smaller file."
        else if includes (message e) "fetch failed" then
          "CSV processing service is not available. Please check if the processing service is running."
        else message e
      | None => errorMessage
      end
    end
  end.

(** [error?.constructor?.name] *)
Definition constructorName (error : Thrown) : string :=
  match error with
  | ThrownObject _ _ => "Object"
  | ThrownError e => ctor e
  end.

(** [(error as any)?.stack] *)
Definition stackOf (error : Thrown) : LogArg :=
  match error with
  | ThrownObject _ _ => AUndefined
  | ThrownError e => AStr (stack e)
  end.

(** The [catch] block of [onUploadFinish]: it logs, and nothing else. *)
Definition finishCatch (error : Thrown) : Eff unit :=
  do* consoleError [AStr "Error during onUploadFinish for tus upload:"; AThrown error] in
  do* consoleError [AStr "Error type:"; AStr "object"] in
  do* consoleError [AStr "Error constructor:"; AStr (constructorName error)] in
  do* consoleError [AStr "Error stack:"; stackOf error] in
  let errorMessage := describeError error in
  do* consoleError [AStr "Final error message:"; AStr errorMessage] in
  do* consoleError [AStr "Upload completed but processing failed. Error:"; AStr errorMessage] in
  consoleLog [AStr "Error stored in upload metadata. Client should check status endpoint."].

(** [onUploadFinish(req, upload)]; the request is not inspected. *)
Definition onUploadFinish (net : Network) (upload : Upload) : Eff FinishReply :=
  do* consoleLog [AStr ("Upload finished for file: " ++ id upload)] in
  do* consoleLog [AStr "File location (key in MinIO):"; AStr (id upload)] in
  do* tryCatch (finishTry net upload) finishCatch in
  ret emptyReply.

End UploadRoute.

Import UploadRoute.

(** ** The protocol engine behind [server.handleWeb] *)

Module Engine.

(** What the engine answers to the client. *)
Record TusResponse : Type := mkTusResponse {
  tusStatus : Z;
  tusBody : string
}.

(** The two engine transitions that run a hook of this repository. *)
Inductive Transition : Type :=
| Creation (upload : Upload)      (* create-upload request *)
| FinalChunk (upload : Upload).   (* the chunk that completes the transfer *)

(** Modelled from the spec: how the Upload Protocol Engine treats a failure
    raised by a hook; [server.handleWeb] is the tus library's and is absent
    from the sources.  A thrown value carrying a status code and a textual
    body aborts the request with that status and body; any other failure
    is passed on to the caller. *)
Definition abortWith (error : Thrown) : Eff TusResponse :=
  match error with
  | ThrownObject code (JStr reason) => ret {| tusStatus := code; tusBody := reason |}
  | _ => throw error
  end.

(** The engine records a newly created upload at offset zero. *)
Definition createRecord (upload : Upload) (reply : CreateReply) : Eff unit :=
  fun w =>
    (Returned tt,
     {| uploads := <[id upload :=
                      {| id := id upload; size := size upload; offset := 0;
                         metadata := replyMetadata reply |}]> (uploads w);
        reachable := reachable w;
        console := console w |}).

(** Modelled from the spec: the creation and completion transitions of the
    Upload Protocol Engine ([server.handleWeb], absent from the sources).
    Creation runs [onUploadCreate] before anything is stored and answers
    201; the chunk that completes the transfer runs [onUploadFinish]
    synchronously before answering 204, unless the hook's reply overrides
    status or body. *)
Definition handleWeb (net : Network) (t : Transition) : Eff TusResponse :=
  match t with
  | Creation upload =>
    tryCatch
      (let* reply := onUploadCreate upload in
       do* createRecord upload reply in
       ret {| tusStatus := 201; tusBody := EmptyString |})
      abortWith
  | FinalChunk upload =>
    tryCatch
      (let* reply := onUploadFinish net upload in
       ret {| tusStatus := default 204 (replyStatus reply);
              tusBody := default EmptyString (replyBody reply) |})
      abortWith
  end.

(** [export const POST] of the upload route. *)
Definition POST (net : Network) (t : Transition) : Eff TusResponse :=
  tryCatch (handleWeb net t)
    (fun error =>
       do* consoleError [AStr "TUS server error in POST:"; AThrown error] in
       ret {| tusStatus := 500; tusBody := "Internal Server Error" |}).

(** [export const PATCH] of the upload route. *)
Definition PATCH (net : Network) (t : Transition) : Eff TusResponse :=
  tryCatch (handleWeb net t)
    (fun error =>
       do* consoleError [AStr "TUS server error in PATCH:"; AThrown error] in
       ret {| tusStatus := 500; tusBody := "Internal Server Error" |}).

End Engine.

Import Engine.

(** ** [api/upload-status/[id]/route.ts] *)

Module StatusRoute.

(** [NextResponse.json(body, { status })] *)
Record JsonResponse : Type := mkJsonResponse {
  statusCode : Z;
  body : Json
}.

(** An object-literal property whose value may be [undefined]:
    [JSON.stringify] leaves such a property out. *)
Definition property (k : string) (v : option MetaVal) : list (string * Json) :=
  match v with
  | None => []
  | Some x => [(k, metaJson x)]
  end.

(** [v === lit] for a metadata field and a string literal. *)
Definition equalsStr (v : option MetaVal) (lit : string) : bool :=
  match v with
  | Some (MStr s) => String.eqb s lit
  | _ => false
  end.

(** The part of [GET] after the upload was found. *)
Definition project (uploadId : string) (upload : Upload) : JsonResponse :=
  let metadata := default ∅ (metadata upload) in
  if metaTruthy (metadata !! "processing_error") then
    {| statusCode := 200;
       body := JObj ([("status", JStr "error")]
                     ++ property "error" (metadata !! "processing_error")
                     ++ [("uploadId", JStr uploadId)])%list |}
  else if equalsStr (metadata !! "processing_status") "success" then
    {| statusCode := 200;
       body := JObj ([("status", JStr "success"); ("uploadId", JStr uploadId)]
                     ++ property "completedAt" (metadata !! "processing_completed_at"))%list |}
  else
    {| statusCode := 200;
       body := JObj [("status", JStr "unknown"); ("uploadId", JStr uploadId);
                     ("message", JStr "Processing status unknown")] |}.

(** [export async function GET(request, { params })] with [params.id]
    already awaited. *)
Definition GET (uploadId : string) : Eff JsonResponse :=
  tryCatch
    (do* consoleLog [AStr "Checking status for upload:"; AStr uploadId] in
     let* upload := getUpload uploadId in
     match upload with
     | None =>
       ret {| statusCode := 404; body := JObj [("error", JStr "Upload not found")] |}
     | Some upload => ret (project uploadId upload)
     end)
    (fun error =>
       do* consoleError [AStr "Error checking upload status:"; AThrown error] in
       ret {| statusCode := 500;
              body := JObj [("error", JStr "Failed to check upload status")] |}).

(** The ["status"], ["error"] and ["completedAt"] members of a response. *)
Definition member (k : string) (r : JsonResponse) : Value :=
  match body r with
  | JObj fields => assoc k fields
  | _ => None
  end.

End StatusRoute.

Import StatusRoute.

(** ** The upload page ([page.tsx], the revision that polls the status
    endpoint) *)

Module Page.

(** The [File] picked in the input element. *)
Record File : Type := mkFile {
  fileName : string;
  fileType : string;
  fileSize : Z
}.

(** The three [useState] cells of [Home].  [uploadProgress] holds 0 or 100
    in the handlers below; [onProgress], which stores fractions, is not
    part of this model. *)
Record UiState : Type := mkUi {
  selectedFile : option File;
  uploadProgress : Z;
  uploadStatus : string
}.

(** [originalRequest] of an upload error: [getStatus] is [Some n] when the
    request object has a [getStatus] function and it returns [n]. *)
Record HttpRequest : Type := mkHttpRequest {
  getStatus : option Z
}.

(** The error handed to [onError].  [errRequest] is [None] when the error
    has no [originalRequest] property and [Some None] when the property
    holds a falsy value. *)
Record UploadError : Type := mkUploadError {
  errMessage : string;
  errRequest : option (option HttpRequest)
}.

(** One argument of a browser console call. *)
Inductive PageArg : Type :=
| PStr (s : string)
| PJson (j : Json)
| PThrown (e : Thrown)
| PUploadError (e : UploadError)
| PUrl (u : option string).

(** The page as the handlers see it: the React state and the browser
    console. *)
Record Browser : Type := mkBrowser {
  ui : UiState;
  devtools : list (Level * list PageArg)
}.

Definition setSelectedFile (f : option File) (b : Browser) : Browser :=
  {| ui := {| selectedFile := f;
              uploadProgress := uploadProgress (ui b);
              uploadStatus := uploadStatus (ui b) |};
     devtools := devtools b |}.

Definition setUploadProgress (p : Z) (b : Browser) : Browser :=
  {| ui := {| selectedFile := selectedFile (ui b);
              uploadProgress := p;
              uploadStatus := uploadStatus (ui b) |};
     devtools := devtools b |}.

Definition setUploadStatus (s : string) (b : Browser) : Browser :=
  {| ui := {| selectedFile := selectedFile (ui b);
              uploadProgress := uploadProgress (ui b);
              uploadStatus := s |};
     devtools := devtools b |}.

Definition pageConsole (l : Level) (xs : list PageArg) (b : Browser) : Browser :=
  {| ui := ui b; devtools := (devtools b ++ [(l, xs)])%list |}.

(** [resetUpload] *)
Definition resetUpload (b : Browser) : Browser :=
  setUploadStatus EmptyString (setUploadProgress 0 (setSelectedFile None b)).

(** [s.split("/")] *)
Fixpoint split (s : string) : list string :=
  match s with
  | EmptyString => [EmptyString]
  | String c rest =>
    if Ascii.eqb c "/"%char then EmptyString :: split rest
    else match split rest with
         | head :: tail => String c head :: tail
         | [] => [String c EmptyString]
         end
  end.

(** A value inside a template literal: [`${v}`]. *)
Fixpoint templateJson (j : Json) : string :=
  match j with
  | JNull => "null"
  | JBool true => "true"
  | JBool false => "false"
  | JNum n => showInt n
  | JStr s => s
  | JArr items =>
    String.concat ","
      (map (fun x => match x with
                     | JNull => EmptyString
                     | _ => templateJson x
                     end) items)
  | JObj _ => "[object Object]"
  end.

Definition template (v : Value) : string :=
  match v with
  | None => "undefined"
  | Some j => templateJson j
  end.

(** [v === lit] for a property value and a string literal. *)
Definition isString (v : Value) (lit : string) : bool :=
  match v with
  | Some (JStr s) => String.eqb s lit
  | _ => false
  end.

(** How the page's [fetch] of the status URL ends: it rejects, or a
    response arrives whose body [response.json()] parses ([Some]) or does
    not ([None]). *)
Inductive StatusFetch : Type :=
| FetchRejects (e : Thrown)
| FetchAnswers (parsed : option Json).

(** The inner [catch] of [checkProcessingStatus]. *)
Definition checkFailed (error : Thrown) (b : Browser) : Browser :=
  setUploadProgress 100
    (setUploadStatus "Upload completed, but could not verify processing status"
       (pageConsole ErrorLevel [PStr "Error checking processing status:"; PThrown error] b)).

(** The callback given to [setTimeout] in [checkProcessingStatus], run
    with the outcome of its [fetch]. *)
Definition statusCallback (reply : StatusFetch) (b : Browser) : Browser :=
  match reply with
  | FetchRejects error => checkFailed error b
  | FetchAnswers None => checkFailed (syntaxError "Unexpected token in JSON") b
  | FetchAnswers (Some statusData) =>
    let b := pageConsole LogLevel [PStr "Processing status:"; PJson statusData] b in
    match getProp statusData "status" with
    | inl error => checkFailed error b
    | inr status =>
      if isString status "error" then
        match getProp statusData "error" with
        | inl error => checkFailed error b
        | inr reported =>
          setUploadProgress 0 (setUploadStatus ("Error: " ++ template reported) b)
        end
      else if isString status "success" then
        setUploadProgress 100
          (setUploadStatus "Upload and CSV processing completed successfully!" b)
      else
        setUploadProgress 100
          (setUploadStatus "Upload completed, but processing status is unknown" b)
    end
  end.

(** [checkProcessingStatus(uploadUrl)]: the page's [fetch] is given as a
    function of the requested URL, and the timer's callback is run at
    once.  Nothing in the outer [try] throws. *)
Definition checkProcessingStatus (fetchStatus : string -> StatusFetch)
           (uploadUrl : string) (b : Browser) : Browser :=
  let parts := split uploadUrl in
  match last parts with
  | Some uploadId =>
    if String.eqb uploadId EmptyString then
      setUploadStatus "Error: Could not determine upload ID" b
    else
      let b := pageConsole LogLevel
                 [PStr "Checking processing status for upload:"; PStr uploadId] b in
      statusCallback (fetchStatus ("/api/upload-status/" ++ uploadId)) b
  | None => setUploadStatus "Error: Could not determine upload ID" b
  end.

(** [onSuccess(payload)]; [url] is [upload.url]. *)
Definition onSuccess (fetchStatus : string -> StatusFetch) (payload : Json)
           (url : option string) (b : Browser) : Browser :=
  let b := pageConsole LogLevel [PStr "Upload completed:"; PJson payload] b in
  let b := pageConsole LogLevel [PStr "Upload URL:"; PUrl url] b in
  match url with
  | Some u =>
    if String.eqb u EmptyString then
      setUploadStatus "Upload completed, but could not determine upload URL" b
    else checkProcessingStatus fetchStatus u b
  | None => setUploadStatus "Upload completed, but could not determine upload URL" b
  end.

(** The [errorMessage] computed in [onError]. *)
Definition uploadErrorMessage (error : UploadError) : string :=
  let errorMessage := "Upload failed" in
  if negb (String.eqb (errMessage error) EmptyString) then errMessage error
  else
    match errRequest error with
    | Some (Some originalRequest) =>
      match getStatus originalRequest with
      | Some status =>
        if Z.eqb status 500 then
          "CSV processing failed. Please check your file format and try again."
        else if Z.eqb status 400 then
          "Invalid file type. Only CSV files are allowed."
        else if Z.eqb status 413 then
          "File too large. Maximum size is 50MB."
        else "Upload failed with status " ++ showInt status
      | None => errorMessage
      end
    | _ => errorMessage
    end.

(** [onError(error)] *)
Definition onError (error : UploadError) (b : Browser) : Browser :=
  let b := pageConsole ErrorLevel [PStr "Upload failed:"; PUploadError error] b in
  setUploadProgress 0 (setUploadStatus ("Error: " ++ uploadErrorMessage error) b).

(** The colour of the status paragraph. *)
Inductive Banner : Type := Red | Green | Blue.

(** The [className] chosen for the status paragraph. *)
Definition bannerOf (status : string) : Banner :=
  if String.prefix "Error:" status then Red
  else if includes status "successfully" then Green
  else Blue.

(** Whether the status paragraph is rendered:
    [selectedFile && uploadStatus && ...]. *)
Definition showsStatus (s : UiState) : bool :=
  match selectedFile s with
  | Some _ => negb (String.eqb (uploadStatus s) EmptyString)
  | None => false
  end.

(** Whether the progress bar is rendered:
    [selectedFile && uploadProgress > 0 && ...]. *)
Definition showsProgressBar (s : UiState) : bool :=
  match selectedFile s with
  | Some _ => (0 <? uploadProgress s)%Z
  | None => false
  end.

(** Whether the button "Upload Another File" is rendered. *)
Definition showsResetButton (s : UiState) : bool :=
  match selectedFile s with
  | Some _ => String.prefix "Error:" (uploadStatus s)
              || includes (uploadStatus s) "successfully"
  | None => false
  end.

End Page.

Import Page.

(** ** Properties of handlers *)

Module Props.

(** [w'] holds the same uploads as [w] and is as reachable: no upload and
    no metadata was written between them. *)
Definition sameStore (w w' : World) : Prop :=
  uploads w' = uploads w /\ reachable w' = reachable w.

(** A handler that never writes to the datastore. *)
Definition readOnly {A} (m : Eff A) : Prop :=
  forall w, sameStore w (snd (m w)).

(** A handler from which no failure escapes. *)
Definition neverRaises {A} (m : Eff A) : Prop :=
  forall w, exists a, fst (m w) = Returned a.

(** The upload's metadata records a processing error: a non-empty string
    under [processing_error]. *)
Definition hasProcessingError (upload : Upload) : Prop :=
  exists s, metaField (metadata upload) "processing_error" = Some (MStr s)
            /\ s <> EmptyString.

(** The upload's metadata records [processing_status = "success"]. *)
Definition markedSuccessful (upload : Upload) : Prop :=
  metaField (metadata upload) "processing_status" = Some (MStr "success").

(** The React state after the timer's callback received the status
    endpoint's answer [r]. *)
Definition pageAfter (r : JsonResponse) (b : Browser) : UiState :=
  ui (statusCallback (FetchAnswers (Some (body r))) b).

(** The hook logged [msg] as its final error message. *)
Definition finalMessage (w : World) (msg : string) : Prop :=
  In (mkEntry ErrorLevel [AStr "Final error message:"; AStr msg]) (console w).

End Props.

Import Props.

(** ** Sample inputs *)

Module Samples.

Definition csvMetadata : gmap string MetaVal :=
  <["filename" := MStr "sales.csv"]> (<["filetype" := MStr "text/csv"]> ∅).

(** A finished 1000-byte CSV upload. *)
Definition csvUpload : Upload :=
  {| id := "u1"; size := Some 1000; offset := 1000; metadata := Some csvMetadata |}.

(** A bucket that holds [csvUpload] and nothing else. *)
Definition bucket : World :=
  {| uploads := <["u1" := csvUpload]> ∅; reachable := true; console := [] |}.

(** A 60 MiB upload declared as JSON. *)
Definition bigJsonUpload : Upload :=
  {| id := "u2"; size := Some (60 * 1024 * 1024); offset := 0;
     metadata := Some (<["filetype" := MStr "application/json"]> ∅) |}.

(** A 60 MiB upload declared as CSV. *)
Definition bigCsvUpload : Upload :=
  {| id := "u3"; size := Some (60 * 1024 * 1024); offset := 0;
     metadata := Some (<["filetype" := MStr "text/csv"]> ∅) |}.

(** A CSV upload created with a deferred length. *)
Definition deferredCsvUpload : Upload :=
  {| id := "u4"; size := None; offset := 0;
     metadata := Some (<["filetype" := MStr "text/csv"]> ∅) |}.

(** An upload whose metadata carries both an error and a success mark. *)
Definition conflictedUpload : Upload :=
  {| id := "u5"; size := Some 10; offset := 10;
     metadata := Some (<["processing_error" := MStr "bad header"]>
                       (<["processing_status" := MStr "success"]>
                        (<["processing_completed_at" := MStr "2025-01-01T00:00:00Z"]> ∅))) |}.

Definition conflictedBucket : World :=
  {| uploads := <["u5" := conflictedUpload]> ∅; reachable := true; console := [] |}.

(** The body text of a service reply whose [success] member is [flag]. *)
Definition jsonText (flag : string) : string :=
  let quote := String (Ascii.ascii_of_nat 34) EmptyString in
  "{" ++ quote ++ "success" ++ quote ++ ": " ++ flag ++ "}".

(** The Processing Service answers 200 with a body whose [success] member
    is [true]. *)
Definition serviceAccepts : Network :=
  fun _ => Responds {| status := 200; text := jsonText "true";
                       json := Some (JObj [("success", JBool true)]) |}.

(** The Processing Service answers 200 with [success] false and the error
    text [reason]. *)
Definition serviceRejects (reason : string) : Network :=
  fun _ => Responds {| status := 200; text := jsonText "false";
                       json := Some (JObj [("success", JBool false);
                                           ("error", JStr reason)]) |}.

(** The Processing Service does not answer within the time limit. *)
Definition serviceHangs : Network := fun _ => TimesOut.

(** The Processing Service is not listening. *)
Definition serviceDown : Network := fun _ => ConnectionFails.

(** The world left behind by the request that completes [csvUpload]. *)
Definition afterFinalChunk (net : Network) : World :=
  snd (PATCH net (FinalChunk csvUpload) bucket).

(** What the status endpoint answers for an upload without a recorded
    outcome. *)
Definition unknownAnswer (uploadId : string) : JsonResponse :=
  {| statusCode := 200;
     body := JObj [("status", JStr "unknown"); ("uploadId", JStr uploadId);
                   ("message", JStr "Processing status unknown")] |}.

(** The answer the status handler prepares for a falsy lookup result. *)
Definition notFoundAnswer : JsonResponse :=
  {| statusCode := 404; body := JObj [("error", JStr "Upload not found")] |}.

(** The Processing Service answers 503 with a plain-text body. *)
Definition serviceUnavailable : Network :=
  fun _ => Responds {| status := 503; text := "busy"; json := None |}.

(** The Processing Service reports a failure without an [error] member. *)
Definition serviceRejectsSilently : Network :=
  fun _ => Responds {| status := 200; text := jsonText "false";
                       json := Some (JObj [("success", JBool false)]) |}.

(** A CSV upload of exactly the largest accepted size. *)
Definition largestCsvUpload : Upload :=
  {| id := "u6"; size := Some MAX_CSV_SIZE; offset := 0;
     metadata := Some (<["filetype" := MStr "text/csv"]> ∅) |}.

(** An upload recorded as processed, without a completion time. *)
Definition processedUpload : Upload :=
  {| id := "u7"; size := Some 10; offset := 10;
     metadata := Some (<["processing_status" := MStr "success"]>
                       (<["processing_error" := MStr EmptyString]> ∅)) |}.

Definition processedBucket : World :=
  {| uploads := <["u7" := processedUpload]> ∅; reachable := true; console := [] |}.

(** A bucket that cannot be reached. *)
Definition lostBucket : World :=
  {| uploads := ∅; reachable := false; console := [] |}.

End Samples.

Import Samples.

(** ** Sample pages *)

Module PageSamples.

(** The page at the end of a transfer of [sales.csv]. *)
Definition transferDone : Browser :=
  {| ui := {| selectedFile := Some {| fileName := "sales.csv"; fileType := "text/csv";
                                      fileSize := 1000 |};
              uploadProgress := 100;
              uploadStatus := "Uploading: 100.00%" |};
     devtools := [] |}.

(** An upload error that carries a message and a request with status 413. *)
Definition tooLargeError : UploadError :=
  {| errMessage := "tus: unexpected response while creating upload";
     errRequest := Some (Some {| getStatus := Some 413 |}) |}.

(** A status endpoint that is never reached. *)
Definition offline : string -> StatusFetch :=
  fun _ => FetchRejects fetchFailed.

End PageSamples.

Import PageSamples.

(** ** Framing: which handlers leave the datastore alone *)

Section Framing.

Context {A B : Type}.

Lemma sameStore_refl (w : World) : sameStore w w.
Proof. split; reflexivity. Qed.

Lemma sameStore_trans (w1 w2 w3 : World) :
  sameStore w1 w2 -> sameStore w2 w3 -> sameStore w1 w3.
Proof. intros [H1 H2] [H3 H4]. split; congruence. Qed.

Lemma readOnly_ret (a : A) : readOnly (ret a).
Proof. intros w. apply sameStore_refl. Qed.

Lemma readOnly_throw (e : Thrown) : readOnly (@throw A e).
Proof. intros w. apply sameStore_refl. Qed.

Lemma readOnly_bind (m : Eff A) (k : A -> Eff B) :
  readOnly m -> (forall a, readOnly (k a)) -> readOnly (bind m k).
Proof.
  intros Hm Hk w. unfold bind. specialize (Hm w).
  destruct (m w) as [[a | e] w1]; simpl in *.
  - eapply sameStore_trans; [exact Hm | apply Hk].
  - exact Hm.
Qed.

Lemma readOnly_tryCatch (m : Eff A) (handler : Thrown -> Eff A) :
  readOnly m -> (forall e, readOnly (handler e)) -> readOnly (tryCatch m handler).
Proof.
  intros Hm Hh w. unfold tryCatch. specialize (Hm w).
  destruct (m w) as [[a | e] w1]; simpl in *.
  - exact Hm.
  - eapply sameStore_trans; [exact Hm | apply Hh].
Qed.

Lemma readOnly_liftThrow (r : Thrown + A) : readOnly (liftThrow r).
Proof. destruct r; intros w; apply sameStore_refl. Qed.

End Framing.

Lemma readOnly_consoleWrite (l : Level) (xs : list LogArg) :
  readOnly (consoleWrite l xs).
Proof. intros w. split; reflexivity. Qed.

Lemma readOnly_getUpload (uploadId : string) : readOnly (getUpload uploadId).
Proof.
  intros w. unfold getUpload.
  destruct (reachable w); [ destruct (uploads w !! uploadId) | ]; apply sameStore_refl.
Qed.

Lemma readOnly_fetch (net : Network) (req : Request) : readOnly (fetch net req).
Proof.
  intros w. unfold fetch. destruct (net req); apply sameStore_refl.
Qed.

Lemma readOnly_responseJson (r : Response) : readOnly (responseJson r).
Proof.
  intros w. unfold responseJson. destruct (json r); apply sameStore_refl.
Qed.

Create HintDb readonly.
#[export] Hint Resolve readOnly_ret readOnly_throw readOnly_liftThrow
  readOnly_consoleWrite readOnly_getUpload readOnly_fetch
  readOnly_responseJson : readonly.

(** One step through a handler's body. *)
Ltac frame_step :=
  first
    [ apply readOnly_bind; [ | intros ? ]
    | apply readOnly_tryCatch; [ | intros ? ]
    | match goal with
      | |- readOnly (if ?c then _ else _) => destruct c
      | |- readOnly (match ?x with _ => _ end) => destruct x
      end
    | solve [ unfold consoleLog, consoleError; auto with readonly ] ].

Lemma readOnly_finishTry (net : Network) (upload : Upload) :
  readOnly (finishTry net upload).
Proof. unfold finishTry. repeat frame_step. Qed.

Lemma readOnly_finishCatch (error : Thrown) : readOnly (finishCatch error).
Proof. unfold finishCatch. repeat frame_step. Qed.

Lemma readOnly_onUploadFinish (net : Network) (upload : Upload) :
  readOnly (onUploadFinish net upload).
Proof.
  unfold onUploadFinish.
  apply readOnly_bind; [ frame_step | intros _ ].
  apply readOnly_bind; [ frame_step | intros _ ].
  apply readOnly_bind; [ | intros _; frame_step ].
  apply readOnly_tryCatch; [ apply readOnly_finishTry | apply readOnly_finishCatch ].
Qed.

Lemma readOnly_GET (uploadId : string) : readOnly (GET uploadId).
Proof. unfold GET. repeat frame_step. Qed.

(** ** Failures that escape, and failures that do not *)

Lemma neverRaises_ret {A} (a : A) : neverRaises (ret a).
Proof. intros w. exists a. reflexivity. Qed.

Lemma neverRaises_bind {A B} (m : Eff A) (k : A -> Eff B) :
  neverRaises m -> (forall a, neverRaises (k a)) -> neverRaises (bind m k).
Proof.
  intros Hm Hk w. unfold bind. destruct (Hm w) as [a Ha].
  destruct (m w) as [c w1]; simpl in Ha; subst c. apply Hk.
Qed.

Lemma neverRaises_tryCatch {A} (m : Eff A) (handler : Thrown -> Eff A) :
  (forall e, neverRaises (handler e)) -> neverRaises (tryCatch m handler).
Proof.
  intros Hh w. unfold tryCatch.
  destruct (m w) as [[a | e] w1]; [ exists a; reflexivity | apply Hh ].
Qed.

Lemma neverRaises_consoleWrite (l : Level) (xs : list LogArg) :
  neverRaises (consoleWrite l xs).
Proof. intros w. exists tt. reflexivity. Qed.

Lemma neverRaises_finishCatch (error : Thrown) : neverRaises (finishCatch error).
Proof.
  unfold finishCatch, consoleError, consoleLog.
  repeat (apply neverRaises_bind; [ apply neverRaises_consoleWrite | intros _ ]).
  apply neverRaises_consoleWrite.
Qed.

Lemma neverRaises_onUploadFinish (net : Network) (upload : Upload) :
  neverRaises (onUploadFinish net upload).
Proof.
  unfold onUploadFinish, consoleLog.
  repeat (apply neverRaises_bind; [ apply neverRaises_consoleWrite | intros _ ]).
  apply neverRaises_bind; [ | intros _; apply neverRaises_ret ].
  apply neverRaises_tryCatch, neverRaises_finishCatch.
Qed.

(** Whatever the hook resolves to, it is the empty object. *)
Lemma onUploadFinish_reply (net : Network) (upload : Upload) (w : World) (r : FinishReply) :
  fst (onUploadFinish net upload w) = Returned r -> r = emptyReply.
Proof.
  unfold onUploadFinish, bind, consoleLog, consoleWrite. simpl.
  destruct (tryCatch _ _ _) as [[[] | e] w1]; simpl; congruence.
Qed.

Lemma onUploadFinish_returns (net : Network) (upload : Upload) (w : World) :
  fst (onUploadFinish net upload w) = Returned emptyReply.
Proof.
  destruct (neverRaises_onUploadFinish net upload w) as [r Hr].
  rewrite Hr. f_equal. eapply onUploadFinish_reply, Hr.
Qed.

(** The final-chunk request is answered from the hook's reply. *)
Lemma PATCH_after_finish (net : Network) (upload : Upload) (w : World) (r : FinishReply) :
  fst (onUploadFinish net upload w) = Returned r ->
  fst (PATCH net (FinalChunk upload) w)
  = Returned {| tusStatus := default 204 (replyStatus r);
                tusBody := default EmptyString (replyBody r) |}.
Proof.
  intros H. unfold PATCH, handleWeb, tryCatch, bind.
  destruct (onUploadFinish net upload w) as [c w1]. simpl in H. subst c.
  reflexivity.
Qed.

(** ** What the status endpoint answers *)

Lemma GET_response (uploadId : string) (w : World) :
  fst (GET uploadId w)
  = Returned
      (if reachable w then
         match uploads w !! uploadId with
         | Some upload => project uploadId upload
         | None => {| statusCode := 500;
                      body := JObj [("error", JStr "Failed to check upload status")] |}
         end
       else {| statusCode := 500;
               body := JObj [("error", JStr "Failed to check upload status")] |}).
Proof.
  unfold GET, tryCatch, bind, getUpload, consoleLog, consoleError, consoleWrite.
  simpl. destruct (reachable w); simpl; [ | reflexivity ].
  destruct (uploads w !! uploadId); reflexivity.
Qed.

(** The answer is a function of the datastore alone. *)
Lemma GET_sameStore (uploadId : string) (w w' : World) :
  sameStore w w' -> fst (GET uploadId w') = fst (GET uploadId w).
Proof.
  intros [Hu Hr]. rewrite !GET_response, Hu, Hr. reflexivity.
Qed.

(** For [Error] instances the [instanceof Error] arm of the [catch] block
    is never taken: the message is what the runtime put there. *)
Lemma describeError_of_Error (e : JsError) :
  describeError (ThrownError e) = message e.
Proof. reflexivity. Qed.

(** A status query after finalization answers what it would have answered
    before: the hook records nothing. *)
Lemma GET_after_finish (net : Network) (upload : Upload) (uploadId : string) (w : World) :
  fst (GET uploadId (snd (onUploadFinish net upload w))) = fst (GET uploadId w).
Proof. apply GET_sameStore, readOnly_onUploadFinish. Qed.

(** ** The creation guard *)

Lemma differsFrom_true (v : option MetaVal) (lit : string) :
  v <> Some (MStr lit) -> differsFrom v lit = true.
Proof.
  destruct v as [[ | s] | ]; simpl; try reflexivity.
  intros H. destruct (String.eqb_spec s lit) as [-> | _]; [ now contradict H | reflexivity ].
Qed.

Lemma differsFrom_false (lit : string) : differsFrom (Some (MStr lit)) lit = false.
Proof. simpl. now rewrite String.eqb_refl. Qed.

Lemma oversized_above (n : Z) : (MAX_CSV_SIZE < n)%Z -> oversized (Some n) = true.
Proof.
  intros H. unfold oversized.
  assert (0 < MAX_CSV_SIZE)%Z by reflexivity.
  apply andb_true_intro. split.
  - apply negb_true_iff, Z.eqb_neq. lia.
  - apply Z.ltb_lt. exact H.
Qed.

(** The size test fires only for a declared size above the limit. *)
Lemma oversized_only_above (sz : option Z) :
  oversized sz = true -> exists n, sz = Some n /\ (MAX_CSV_SIZE < n)%Z.
Proof.
  destruct sz as [n | ]; simpl; [ | discriminate ].
  intros H. apply andb_prop in H as [_ H]. exists n. split; [ reflexivity | ].
  apply Z.ltb_lt. exact H.
Qed.

(** A rejection by a hook is what the client of [POST] is answered. *)
Lemma POST_rejected (net : Network) (upload : Upload) (w : World)
      (code : Z) (reason : string) :
  onUploadCreate upload w = (Raised (ThrownObject code (JStr reason)), w) ->
  POST net (Creation upload) w
  = (Returned {| tusStatus := code; tusBody := reason |}, w).
Proof.
  intros H. unfold POST, handleWeb, tryCatch, bind. rewrite H. reflexivity.
Qed.

(** C6 — a create-upload request whose metadata [filetype] is not
    ["text/csv"] is rejected with status 400 and a readable reason, and
    nothing is stored for it: the world is left exactly as it was. *)
Theorem create_rejects_non_csv (net : Network) (upload : Upload) (w : World) :
  metaField (metadata upload) "filetype" <> Some (MStr "text/csv") ->
  onUploadCreate upload w
  = (Raised (ThrownObject 400
       (JStr "Only CSV files are allowed. Please upload a file with 'text/csv' content type.")),
     w)
  /\ POST net (Creation upload) w
     = (Returned {| tusStatus := 400;
                    tusBody := "Only CSV files are allowed. Please upload a file with 'text/csv' content type." |},
        w).
Proof.
  intros H.
  assert (Hc : onUploadCreate upload w
               = (Raised (ThrownObject 400
                    (JStr "Only CSV files are allowed. Please upload a file with 'text/csv' content type.")),
                  w)).
  { unfold onUploadCreate. rewrite (differsFrom_true _ _ H). reflexivity. }
  split; [ exact Hc | apply POST_rejected, Hc ].
Qed.

Lemma create_rejects_non_csv_witness :
  POST serviceAccepts (Creation bigJsonUpload) bucket
  = (Returned {| tusStatus := 400;
                 tusBody := "Only CSV files are allowed. Please upload a file with 'text/csv' content type." |},
     bucket).
Proof.
  apply (create_rejects_non_csv serviceAccepts bigJsonUpload bucket).
  vm_compute. discriminate.
Defined.

(** C7, as amended — a create-upload request that declares ["text/csv"]
    and a length above 50 MiB is rejected with status 413 and a body that
    names the limit. *)
Theorem create_rejects_oversized_csv (net : Network) (upload : Upload) (n : Z) (w : World) :
  metaField (metadata upload) "filetype" = Some (MStr "text/csv") ->
  size upload = Some n ->
  (MAX_CSV_SIZE < n)%Z ->
  onUploadCreate upload w
  = (Raised (ThrownObject 413 (JStr "CSV file too large. Max size is 50MB.")), w)
  /\ POST net (Creation upload) w
     = (Returned {| tusStatus := 413; tusBody := "CSV file too large. Max size is 50MB." |}, w).
Proof.
  intros Hf Hs Hn.
  assert (Hc : onUploadCreate upload w
               = (Raised (ThrownObject 413 (JStr "CSV file too large. Max size is 50MB.")), w)).
  { unfold onUploadCreate.
    rewrite Hf, differsFrom_false, Hs, (oversized_above n Hn). reflexivity. }
  split; [ exact Hc | apply POST_rejected, Hc ].
Qed.

Lemma create_rejects_oversized_csv_witness :
  POST serviceAccepts (Creation bigCsvUpload) bucket
  = (Returned {| tusStatus := 413; tusBody := "CSV file too large. Max size is 50MB." |},
     bucket).
Proof.
  apply (create_rejects_oversized_csv serviceAccepts bigCsvUpload (60 * 1024 * 1024) bucket).
  - reflexivity.
  - reflexivity.
  - reflexivity.
Defined.

(** C7, as stated, fails: a 60 MiB upload declared as JSON exceeds the
    limit and is answered 400 for its type, not 413 for its size. *)
Lemma oversized_json_is_answered_400 :
  size bigJsonUpload = Some (60 * 1024 * 1024)%Z
  /\ (MAX_CSV_SIZE < 60 * 1024 * 1024)%Z
  /\ fst (POST serviceAccepts (Creation bigJsonUpload) bucket)
     = Returned {| tusStatus := 400;
                   tusBody := "Only CSV files are allowed. Please upload a file with 'text/csv' content type." |}
  /\ ~ (exists reason,
          fst (POST serviceAccepts (Creation bigJsonUpload) bucket)
          = Returned {| tusStatus := 413; tusBody := reason |}).
Proof.
  split; [ reflexivity | ]. split; [ reflexivity | ].
  assert (H : fst (POST serviceAccepts (Creation bigJsonUpload) bucket)
              = Returned {| tusStatus := 400;
                            tusBody := "Only CSV files are allowed. Please upload a file with 'text/csv' content type." |})
    by (vm_compute; reflexivity).
  split; [ exact H | ].
  intros [reason Hr]. rewrite H in Hr. discriminate Hr.
Qed.

(** C10 — when the declared size is absent or zero the size test is
    skipped: a request that declares ["text/csv"] is accepted with its
    metadata unchanged, and the client is answered 201. *)
Theorem create_accepts_csv_without_size (net : Network) (upload : Upload) (w : World) :
  size upload = None \/ size upload = Some 0%Z ->
  metaField (metadata upload) "filetype" = Some (MStr "text/csv") ->
  onUploadCreate upload w = (Returned {| replyMetadata := metadata upload |}, w)
  /\ fst (POST net (Creation upload) w)
     = Returned {| tusStatus := 201; tusBody := EmptyString |}.
Proof.
  intros Hs Hf.
  assert (Hc : onUploadCreate upload w
               = (Returned {| replyMetadata := metadata upload |}, w)).
  { unfold onUploadCreate. rewrite Hf, differsFrom_false.
    destruct Hs as [-> | ->]; reflexivity. }
  split; [ exact Hc | ].
  unfold POST, handleWeb, tryCatch, bind. rewrite Hc. reflexivity.
Qed.

Lemma create_accepts_csv_without_size_witness :
  onUploadCreate deferredCsvUpload bucket
  = (Returned {| replyMetadata := metadata deferredCsvUpload |}, bucket).
Proof.
  apply (create_accepts_csv_without_size serviceAccepts deferredCsvUpload bucket).
  - left. reflexivity.
  - reflexivity.
Defined.

(** The other direction: a 413 is only ever raised for a declared size
    above the limit, hence positive. *)
Lemma size_rejection_needs_positive_size (upload : Upload) (w : World) (reason : Json) :
  fst (onUploadCreate upload w) = Raised (ThrownObject 413 reason) ->
  exists n, size upload = Some n /\ (0 < n)%Z /\ (MAX_CSV_SIZE < n)%Z.
Proof.
  unfold onUploadCreate.
  destruct (differsFrom _ _); [ simpl; intros H; discriminate H | ].
  destruct (oversized (size upload)) eqn:Ho; [ | simpl; intros H; discriminate H ].
  intros _. destruct (oversized_only_above _ Ho) as [n [Hn Hlt]].
  exists n. assert (0 < MAX_CSV_SIZE)%Z by reflexivity.
  repeat split; [ exact Hn | lia | exact Hlt ].
Qed.

(** ** The finalization hook *)

(** C4 — whatever the Processing Service does (an explicit failure, a
    non-2xx answer, a body that is not JSON, a timeout, a refused
    connection), [onUploadFinish] resolves to the empty object, and the
    request that carried the final chunk is answered 204. *)
Theorem finish_never_aborts_the_transfer (net : Network) (upload : Upload) (w : World) :
  fst (onUploadFinish net upload w) = Returned emptyReply
  /\ fst (PATCH net (FinalChunk upload) w)
     = Returned {| tusStatus := 204; tusBody := EmptyString |}.
Proof.
  split.
  - apply onUploadFinish_returns.
  - apply (PATCH_after_finish net upload w emptyReply), onUploadFinish_returns.
Qed.

(** C1 — the Processing Service accepts [csvUpload]: the hook takes its
    success path and the transfer is answered 204, yet the datastore is
    left as it was, and the status endpoint answers ["unknown"] without a
    [completedAt]. *)
Theorem success_outcome_is_not_recorded :
  fst (PATCH serviceAccepts (FinalChunk csvUpload) bucket)
  = Returned {| tusStatus := 204; tusBody := EmptyString |}
  /\ last (console (afterFinalChunk serviceAccepts))
     = Some (mkEntry LogLevel [AStr "CSV processing completed successfully"])
  /\ uploads (afterFinalChunk serviceAccepts) = uploads bucket
  /\ fst (GET "u1" (afterFinalChunk serviceAccepts)) = Returned (unknownAnswer "u1")
  /\ member "status" (unknownAnswer "u1") = Some (JStr "unknown")
  /\ member "completedAt" (unknownAnswer "u1") = None.
Proof. repeat split; vm_compute; reflexivity. Qed.

(** C2 — the Processing Service reports [success: false] with the error
    text ["X"]: the hook computes the message ["X"] and logs it, yet the
    datastore is left as it was, and the status endpoint answers
    ["unknown"] with no [error] member. *)
Theorem failure_outcome_is_not_recorded :
  In (mkEntry ErrorLevel [AStr "Final error message:"; AStr "X"])
     (console (afterFinalChunk (serviceRejects "X")))
  /\ uploads (afterFinalChunk (serviceRejects "X")) = uploads bucket
  /\ fst (GET "u1" (afterFinalChunk (serviceRejects "X"))) = Returned (unknownAnswer "u1")
  /\ member "status" (unknownAnswer "u1") = Some (JStr "unknown")
  /\ member "error" (unknownAnswer "u1") = None.
Proof.
  split; [ | repeat split; vm_compute; reflexivity ].
  vm_compute. repeat (first [ left; reflexivity | right ]).
Qed.

(** C3 — the call to the Processing Service times out, or no connection is
    made: in both cases the datastore is left as it was and the status
    endpoint answers ["unknown"]; the messages the hook computes are the
    runtime's own texts and are only logged. *)
Theorem transport_failure_is_not_recorded :
  (uploads (afterFinalChunk serviceHangs) = uploads bucket
   /\ fst (GET "u1" (afterFinalChunk serviceHangs)) = Returned (unknownAnswer "u1"))
  /\ (uploads (afterFinalChunk serviceDown) = uploads bucket
      /\ fst (GET "u1" (afterFinalChunk serviceDown)) = Returned (unknownAnswer "u1"))
  /\ describeError abortError = "This operation was aborted"
  /\ describeError fetchFailed = "fetch failed".
Proof. repeat split; vm_compute; reflexivity. Qed.

(** ** The status endpoint *)

(** C5 — a status query for an id under which the datastore holds no
    upload: the lookup rejects, the handler's [!upload] test is never
    reached, and the endpoint answers 500 with
    [{ error: "Failed to check upload status" }] instead of the 404 with
    [{ error: "Upload not found" }] that the handler prepares. *)
Theorem missing_upload_is_answered_500 :
  reachable bucket = true
  /\ uploads bucket !! "never-created" = None
  /\ fst (GET "never-created" bucket)
     = Returned {| statusCode := 500;
                   body := JObj [("error", JStr "Failed to check upload status")] |}
  /\ fst (GET "never-created" bucket) <> Returned notFoundAnswer.
Proof.
  split; [ reflexivity | ]. split; [ reflexivity | ].
  assert (H : fst (GET "never-created" bucket)
              = Returned {| statusCode := 500;
                            body := JObj [("error", JStr "Failed to check upload status")] |})
    by (vm_compute; reflexivity).
  split; [ exact H | ]. rewrite H. discriminate.
Qed.

(** C8 — a status query writes nothing to the datastore, and two queries
    for the same id against the same datastore state get the same
    answer. *)
Theorem status_query_is_a_projection (uploadId : string) (w w' : World) :
  uploads w' = uploads w ->
  reachable w' = reachable w ->
  uploads (snd (GET uploadId w)) = uploads w
  /\ reachable (snd (GET uploadId w)) = reachable w
  /\ fst (GET uploadId w') = fst (GET uploadId w).
Proof.
  intros Hu Hr. destruct (readOnly_GET uploadId w) as [H1 H2].
  repeat split; [ exact H1 | exact H2 | ].
  apply GET_sameStore. split; assumption.
Qed.

Lemma status_query_is_a_projection_witness :
  uploads (snd (GET "u1" bucket)) = uploads bucket
  /\ reachable (snd (GET "u1" bucket)) = reachable bucket
  /\ fst (GET "u1" (snd (GET "u1" bucket))) = fst (GET "u1" bucket).
Proof.
  apply (status_query_is_a_projection "u1" bucket (snd (GET "u1" bucket))).
  - reflexivity.
  - reflexivity.
Defined.

(** C9 — when an existing upload's metadata holds both a non-empty
    [processing_error] and [processing_status = "success"], the status
    endpoint answers status ["error"] with that error text. *)
Theorem status_error_takes_precedence
        (uploadId : string) (upload : Upload) (fields : gmap string MetaVal)
        (reason : string) (w : World) :
  reachable w = true ->
  uploads w !! uploadId = Some upload ->
  metadata upload = Some fields ->
  fields !! "processing_error" = Some (MStr reason) ->
  reason <> EmptyString ->
  fields !! "processing_status" = Some (MStr "success") ->
  fst (GET uploadId w)
  = Returned {| statusCode := 200;
                body := JObj [("status", JStr "error"); ("error", JStr reason);
                              ("uploadId", JStr uploadId)] |}.
Proof.
  intros Hr Hu Hm He Hne _.
  rewrite GET_response, Hr, Hu. unfold project. rewrite Hm. simpl.
  rewrite He. simpl.
  destruct (String.eqb_spec reason EmptyString) as [Heq | _]; [ contradiction | ].
  reflexivity.
Qed.

Lemma status_error_takes_precedence_witness :
  fst (GET "u5" conflictedBucket)
  = Returned {| statusCode := 200;
                body := JObj [("status", JStr "error"); ("error", JStr "bad header");
                              ("uploadId", JStr "u5")] |}.
Proof.
  apply (status_error_takes_precedence "u5" conflictedUpload
           (default ∅ (metadata conflictedUpload)) "bad header" conflictedBucket).
  - reflexivity.
  - reflexivity.
  - reflexivity.
  - reflexivity.
  - discriminate.
  - reflexivity.
Defined.

(** ** More on the finalization hook *)

(** How the [try] block ends does not depend on the world it starts in. *)
Lemma finishTry_completion (net : Network) (upload : Upload) (w w' : World) :
  fst (finishTry net upload w) = fst (finishTry net upload w').
Proof.
  unfold finishTry, bind, fetch, responseJson, liftThrow, consoleLog, consoleError,
    consoleWrite, throw, ret.
  cbn -[processRequest showInt].
  destruct (net (processRequest upload)) as [r | | ]; cbn -[showInt]; try reflexivity.
  destruct (ok r); cbn -[showInt]; try reflexivity.
  destruct (json r) as [j | ]; cbn; try reflexivity.
  destruct (getProp j "success") as [e | v]; cbn; try reflexivity.
  destruct (truthy v); cbn; try reflexivity.
  destruct (getProp j "error") as [e | v']; reflexivity.
Qed.

(** What the [catch] block adds to the console. *)
Lemma finishCatch_console (error : Thrown) (w : World) :
  console (snd (finishCatch error w))
  = (console w ++
     [ mkEntry ErrorLevel [AStr "Error during onUploadFinish for tus upload:"; AThrown error];
       mkEntry ErrorLevel [AStr "Error type:"; AStr "object"];
       mkEntry ErrorLevel [AStr "Error constructor:"; AStr (constructorName error)];
       mkEntry ErrorLevel [AStr "Error stack:"; stackOf error];
       mkEntry ErrorLevel [AStr "Final error message:"; AStr (describeError error)];
       mkEntry ErrorLevel [AStr "Upload completed but processing failed. Error:";
                           AStr (describeError error)];
       mkEntry LogLevel
         [AStr "Error stored in upload metadata. Client should check status endpoint."] ])%list.
Proof.
  unfold finishCatch, bind, consoleError, consoleLog, consoleWrite.
  cbn -[describeError constructorName stackOf].
  rewrite <- !app_assoc. reflexivity.
Qed.

(** A failure of the [try] block reaches the console as the final error
    message. *)
Lemma caught_is_logged (net : Network) (upload : Upload) (w : World) (error : Thrown) :
  fst (finishTry net upload w) = Raised error ->
  In (mkEntry ErrorLevel [AStr "Final error message:"; AStr (describeError error)])
     (console (snd (onUploadFinish net upload w))).
Proof.
  intros H. unfold onUploadFinish, bind, tryCatch.
  cbn -[finishTry finishCatch describeError].
  match goal with
  | |- context [finishTry net upload ?w1] =>
    rewrite (finishTry_completion net upload w w1) in H;
    destruct (finishTry net upload w1) as [[[] | e] w2]
  end; simpl in H; [ discriminate H | ].
  injection H as ->.
  destruct (finishCatch error w2) as [[[] | e'] w3] eqn:Hc;
    assert (Hw : w3 = snd (finishCatch error w2)) by (rewrite Hc; reflexivity);
    cbn -[describeError]; rewrite Hw, finishCatch_console;
    apply in_or_app; right; cbn -[describeError]; tauto.
Qed.

Lemma finishTry_not_ok (net : Network) (upload : Upload) (w : World) (r : Response) :
  net (processRequest upload) = Responds r ->
  ok r = false ->
  fst (finishTry net upload w)
  = Raised (ThrownObject 500 (JStr ("Failed to process CSV: " ++ text r))).
Proof.
  intros Hn Ho.
  unfold finishTry, bind, fetch, consoleLog, consoleError, consoleWrite, throw, ret.
  cbn -[processRequest showInt]. rewrite Hn. cbn -[showInt]. rewrite Ho. reflexivity.
Qed.

Lemma finishTry_object (net : Network) (upload : Upload) (w : World) (r : Response)
      (fields : list (string * Json)) :
  net (processRequest upload) = Responds r ->
  ok r = true ->
  json r = Some (JObj fields) ->
  fst (finishTry net upload w)
  = if truthy (assoc "success" fields) then Returned tt
    else Raised (ThrownObject 500 (orElse (assoc "error" fields) "CSV processing failed")).
Proof.
  intros Hn Ho Hj.
  unfold finishTry, bind, fetch, responseJson, liftThrow, consoleLog, consoleError,
    consoleWrite, throw, ret.
  cbn -[processRequest showInt]. rewrite Hn. cbn -[showInt]. rewrite Ho. cbn.
  rewrite Hj. cbn. destruct (truthy (assoc "success" fields)); reflexivity.
Qed.

(** X1 — for every upload and every behaviour of the Processing Service,
    [onUploadFinish] leaves the uploads in the datastore as they were, so
    a status query gets the same answer after the hook as before it. *)
Theorem finish_leaves_datastore_untouched (net : Network) (upload : Upload) (w : World) :
  uploads (snd (onUploadFinish net upload w)) = uploads w
  /\ forall uploadId,
       fst (GET uploadId (snd (onUploadFinish net upload w))) = fst (GET uploadId w).
Proof.
  split.
  - apply (readOnly_onUploadFinish net upload w).
  - intros uploadId. apply GET_sameStore, readOnly_onUploadFinish.
Qed.

(** X2 — the [try] block of [onUploadFinish] ends without a failure exactly
    when the Processing Service answers with a 2xx status and a JSON body
    whose [success] member is truthy. *)
Theorem finish_try_succeeds_iff (net : Network) (upload : Upload) (w : World) :
  fst (finishTry net upload w) = Returned tt
  <-> exists r j v,
        net (processRequest upload) = Responds r
        /\ ok r = true
        /\ json r = Some j
        /\ getProp j "success" = inr v
        /\ truthy v = true.
Proof.
  unfold finishTry, bind, fetch, responseJson, liftThrow, consoleLog, consoleError,
    consoleWrite, throw, ret.
  cbn -[processRequest showInt].
  destruct (net (processRequest upload)) as [r | | ]; cbn -[showInt].
  - destruct (ok r) eqn:Ho; cbn -[showInt].
    + destruct (json r) as [j | ] eqn:Hj; cbn.
      * destruct (getProp j "success") as [e | v] eqn:Hp; cbn.
        -- split; [ discriminate | ].
           intros (r' & j' & v' & Hr & _ & Hj' & Hp' & _).
           injection Hr as <-. congruence.
        -- destruct (truthy v) eqn:Ht; cbn.
           ++ split; [ intros _; exists r, j, v; auto | reflexivity ].
           ++ split.
              ** destruct (getProp j "error"); discriminate.
              ** intros (r' & j' & v' & Hr & _ & Hj' & Hp' & Ht').
                 injection Hr as <-. congruence.
      * split; [ discriminate | ].
        intros (r' & j' & v' & Hr & _ & Hj' & _). injection Hr as <-. congruence.
    + split; [ discriminate | ].
      intros (r' & j' & v' & Hr & Ho' & _). injection Hr as <-. congruence.
  - split; [ discriminate | ]. intros (r' & j' & v' & Hr & _). discriminate Hr.
  - split; [ discriminate | ]. intros (r' & j' & v' & Hr & _). discriminate Hr.
Qed.

(** X3 — when the Processing Service answers with a status outside
    200..299, the final error message of the hook is
    ["Failed to process CSV: "] followed by the response's body text;
    the body is not parsed. *)
Theorem finish_reports_bad_status (net : Network) (upload : Upload) (w : World)
        (r : Response) :
  net (processRequest upload) = Responds r ->
  ok r = false ->
  finalMessage (snd (onUploadFinish net upload w)) ("Failed to process CSV: " ++ text r).
Proof.
  intros Hn Ho.
  apply (caught_is_logged net upload w
           (ThrownObject 500 (JStr ("Failed to process CSV: " ++ text r)))).
  apply finishTry_not_ok; assumption.
Qed.

(** X4 — when the Processing Service answers 2xx with a JSON object whose
    [success] member is falsy, the final error message of the hook is the
    object's [error] member if that is a non-empty string,
    ["CSV processing failed"] if that member is falsy or missing, and
    ["Unknown error during CSV processing"] if it is truthy but not a
    string. *)
Theorem finish_reports_service_error (net : Network) (upload : Upload) (w : World)
        (r : Response) (fields : list (string * Json)) :
  net (processRequest upload) = Responds r ->
  ok r = true ->
  json r = Some (JObj fields) ->
  truthy (assoc "success" fields) = false ->
  (forall s, assoc "error" fields = Some (JStr s) -> s <> EmptyString ->
             finalMessage (snd (onUploadFinish net upload w)) s)
  /\ (truthy (assoc "error" fields) = false ->
      finalMessage (snd (onUploadFinish net upload w)) "CSV processing failed")
  /\ (truthy (assoc "error" fields) = true ->
      (forall s, assoc "error" fields <> Some (JStr s)) ->
      finalMessage (snd (onUploadFinish net upload w)) "Unknown error during CSV processing").
Proof.
  intros Hn Ho Hj Hs.
  assert (Hc : fst (finishTry net upload w)
               = Raised (ThrownObject 500 (orElse (assoc "error" fields) "CSV processing failed")))
    by (rewrite (finishTry_object net upload w r fields Hn Ho Hj), Hs; reflexivity).
  apply caught_is_logged in Hc. unfold finalMessage.
  split; [ | split ].
  - intros s He Hne. rewrite He in Hc. unfold orElse, truthy in Hc.
    destruct (String.eqb_spec s EmptyString) as [Heq | _]; [ contradiction | exact Hc ].
  - intros Hf. unfold orElse in Hc. rewrite Hf in Hc. exact Hc.
  - intros Ht Hns. unfold orElse in Hc. rewrite Ht in Hc.
    destruct (assoc "error" fields) as [[ | b | n | s | items | fs] | ];
      try discriminate Ht; try exact Hc.
    contradiction (Hns s). reflexivity.
Qed.

(** X5 — when the [try] block fails with an [Error] instance (an aborted or
    refused [fetch], a body that is not JSON), the final error message of
    the hook is that error's own [message]: the texts reserved for
    timeouts and for an unavailable service are never chosen. *)
Theorem finish_reports_error_message (net : Network) (upload : Upload) (w : World)
        (e : JsError) :
  fst (finishTry net upload w) = Raised (ThrownError e) ->
  finalMessage (snd (onUploadFinish net upload w)) (message e).
Proof.
  intros H. apply caught_is_logged in H. exact H.
Qed.

Lemma finish_reports_bad_status_witness :
  finalMessage (snd (onUploadFinish serviceUnavailable csvUpload bucket))
               "Failed to process CSV: busy".
Proof.
  apply (finish_reports_bad_status serviceUnavailable csvUpload bucket
           {| status := 503; text := "busy"; json := None |}).
  - reflexivity.
  - reflexivity.
Defined.

Lemma finish_reports_service_error_witness :
  finalMessage (snd (onUploadFinish serviceRejectsSilently csvUpload bucket))
               "CSV processing failed".
Proof.
  refine (proj1 (proj2 (finish_reports_service_error serviceRejectsSilently csvUpload bucket
           {| status := 200; text := jsonText "false";
              json := Some (JObj [("success", JBool false)]) |}
           [("success", JBool false)] _ _ _ _)) _); reflexivity.
Defined.

Lemma finish_reports_error_message_witness :
  finalMessage (snd (onUploadFinish serviceHangs csvUpload bucket))
               "This operation was aborted".
Proof.
  apply (finish_reports_error_message serviceHangs csvUpload bucket
           (mkError "DOMException" "AbortError" "This operation was aborted"
                    "AbortError: This operation was aborted")).
  reflexivity.
Defined.

(** ** More on the creation guard *)

(** X6 — a request that declares ["text/csv"] and a size not above
    52428800 bytes is accepted with its metadata unchanged; the limit
    itself is still accepted. *)
Theorem create_accepts_csv_within_limit (upload : Upload) (n : Z) (w : World) :
  metaField (metadata upload) "filetype" = Some (MStr "text/csv") ->
  size upload = Some n ->
  (n <= 52428800)%Z ->
  onUploadCreate upload w = (Returned {| replyMetadata := metadata upload |}, w).
Proof.
  intros Hf Hs Hn. unfold onUploadCreate.
  rewrite Hf, differsFrom_false, Hs.
  assert (Ho : oversized (Some n) = false).
  { unfold oversized. apply andb_false_iff. right.
    apply Z.ltb_ge. change MAX_CSV_SIZE with 52428800%Z. exact Hn. }
  rewrite Ho. reflexivity.
Qed.

Lemma create_accepts_csv_within_limit_witness :
  onUploadCreate largestCsvUpload bucket
  = (Returned {| replyMetadata := metadata largestCsvUpload |}, bucket).
Proof.
  apply (create_accepts_csv_within_limit largestCsvUpload 52428800 bucket).
  - reflexivity.
  - reflexivity.
  - vm_compute. discriminate.
Defined.

Lemma differsFrom_false_inv (v : option MetaVal) (lit : string) :
  differsFrom v lit = false -> v = Some (MStr lit).
Proof.
  destruct v as [[ | s] | ]; simpl; try discriminate.
  intros H. apply negb_false_iff, String.eqb_eq in H. now subst.
Qed.

Lemma oversized_false (sz : option Z) :
  oversized sz = false ->
  sz = None \/ exists n, sz = Some n /\ (n <= MAX_CSV_SIZE)%Z.
Proof.
  destruct sz as [n | ]; [ | left; reflexivity ].
  intros H. right. exists n. split; [ reflexivity | ].
  unfold oversized in H. apply andb_false_iff in H as [H | H].
  - apply negb_false_iff, Z.eqb_eq in H. subst n. discriminate.
  - apply Z.ltb_ge. exact H.
Qed.

(** X7 — the decision table of [onUploadCreate]: it throws 400 exactly when
    the [filetype] is not ["text/csv"], throws 413 exactly when the
    [filetype] is ["text/csv"] and a size above the limit is declared, and
    accepts exactly when the [filetype] is ["text/csv"] and the size is
    undeclared or within the limit; the world is never changed. *)
Theorem create_decision_table (upload : Upload) (w : World) :
  snd (onUploadCreate upload w) = w
  /\ ((exists reason, fst (onUploadCreate upload w) = Raised (ThrownObject 400 reason))
      <-> metaField (metadata upload) "filetype" <> Some (MStr "text/csv"))
  /\ ((exists reason, fst (onUploadCreate upload w) = Raised (ThrownObject 413 reason))
      <-> metaField (metadata upload) "filetype" = Some (MStr "text/csv")
          /\ exists n, size upload = Some n /\ (MAX_CSV_SIZE < n)%Z)
  /\ ((exists reply, fst (onUploadCreate upload w) = Returned reply)
      <-> metaField (metadata upload) "filetype" = Some (MStr "text/csv")
          /\ (size upload = None
              \/ exists n, size upload = Some n /\ (n <= MAX_CSV_SIZE)%Z)).
Proof.
  unfold onUploadCreate.
  destruct (differsFrom (metaField (metadata upload) "filetype") "text/csv") eqn:Hd.
  - assert (Hne : metaField (metadata upload) "filetype" <> Some (MStr "text/csv")).
    { intros Heq. rewrite Heq, differsFrom_false in Hd. discriminate Hd. }
    split; [ reflexivity | ]. split; [ | split ].
    + split; [ intros _; exact Hne | intros _; eexists; reflexivity ].
    + split; [ intros [reason H]; discriminate H | intros [Heq _]; contradiction ].
    + split; [ intros [reply H]; discriminate H | intros [Heq _]; contradiction ].
  - apply differsFrom_false_inv in Hd.
    destruct (oversized (size upload)) eqn:Ho.
    + destruct (oversized_only_above _ Ho) as [n [Hn Hlt]].
      split; [ reflexivity | ]. split; [ | split ].
      * split; [ intros [reason H]; discriminate H | intros Hne; contradiction ].
      * split; [ intros _; split; [ exact Hd | exists n; auto ]
               | intros _; eexists; reflexivity ].
      * split; [ intros [reply H]; discriminate H | ].
        intros [_ [Hnone | [m [Hm Hle]]]]; [ congruence | ].
        rewrite Hn in Hm. injection Hm as <-. lia.
    + destruct (oversized_false _ Ho) as [Hnone | [n [Hn Hle]]].
      * split; [ reflexivity | ]. split; [ | split ].
        -- split; [ intros [reason H]; discriminate H | intros Hne; contradiction ].
        -- split; [ intros [reason H]; discriminate H | ].
           intros [_ [m [Hm _]]]. congruence.
        -- split; [ intros _; split; [ exact Hd | left; exact Hnone ]
                  | intros _; eexists; reflexivity ].
      * split; [ reflexivity | ]. split; [ | split ].
        -- split; [ intros [reason H]; discriminate H | intros Hne; contradiction ].
        -- split; [ intros [reason H]; discriminate H | ].
           intros [_ [m [Hm Hlt]]]. rewrite Hn in Hm. injection Hm as <-. lia.
        -- split; [ intros _; split; [ exact Hd | right; exists n; auto ]
                  | intros _; eexists; reflexivity ].
Qed.

(** ** More on the status endpoint *)

Lemma default_metadata_lookup (upload : Upload) (k : string) :
  default ∅ (metadata upload) !! k = metaField (metadata upload) k.
Proof.
  unfold metaField. destruct (metadata upload); [ reflexivity | apply lookup_empty ].
Qed.

Lemma metaTruthy_true (v : option MetaVal) :
  metaTruthy v = true <-> exists s, v = Some (MStr s) /\ s <> EmptyString.
Proof.
  split.
  - destruct v as [[ | s] | ]; simpl; try discriminate.
    intros H. exists s. split; [ reflexivity | ].
    apply negb_true_iff, String.eqb_neq in H. exact H.
  - intros [s [-> Hne]]. simpl. apply negb_true_iff, String.eqb_neq. exact Hne.
Qed.

Lemma equalsStr_true (v : option MetaVal) (lit : string) :
  equalsStr v lit = true <-> v = Some (MStr lit).
Proof.
  split.
  - destruct v as [[ | s] | ]; simpl; try discriminate.
    intros H. apply String.eqb_eq in H. now subst.
  - intros ->. simpl. apply String.eqb_refl.
Qed.

(** X8 — for an upload found in the datastore the answer is always 200
    and echoes the queried id; its status is ["error"] exactly when
    [processing_error] is a non-empty string, ["success"] exactly when it
    is not and [processing_status] is ["success"], and ["unknown"] in all
    other cases: a null or empty [processing_error] does not count. *)
Theorem status_classification (uploadId : string) (upload : Upload) (w : World) :
  reachable w = true ->
  uploads w !! uploadId = Some upload ->
  exists r,
    fst (GET uploadId w) = Returned r
    /\ statusCode r = 200%Z
    /\ member "uploadId" r = Some (JStr uploadId)
    /\ (member "status" r = Some (JStr "error") <-> hasProcessingError upload)
    /\ (member "status" r = Some (JStr "success")
        <-> ~ hasProcessingError upload /\ markedSuccessful upload)
    /\ (member "status" r = Some (JStr "unknown")
        <-> ~ hasProcessingError upload /\ ~ markedSuccessful upload).
Proof.
  intros Hr Hu. exists (project uploadId upload).
  split; [ rewrite GET_response, Hr, Hu; reflexivity | ].
  unfold project. rewrite !default_metadata_lookup.
  pose proof (metaTruthy_true (metaField (metadata upload) "processing_error")) as He.
  pose proof (equalsStr_true (metaField (metadata upload) "processing_status") "success") as Hs.
  fold (hasProcessingError upload) in He. fold (markedSuccessful upload) in Hs.
  destruct (metaTruthy _).
  - assert (hasProcessingError upload) as HE by (apply He; reflexivity).
    pose proof HE as [s [Hs1 Hs2]]. rewrite Hs1. cbn.
    split; [ reflexivity | ]. split; [ reflexivity | ].
    split; [ tauto | ]. split; split; try discriminate; tauto.
  - assert (~ hasProcessingError upload) as HE
      by (intros H; apply He in H; discriminate H).
    destruct (equalsStr _ _).
    + assert (markedSuccessful upload) as HS by (apply Hs; reflexivity).
      cbn. split; [ reflexivity | ]. split; [ reflexivity | ].
      split; [ split; [ discriminate | tauto ] | ].
      split; split; try discriminate; tauto.
    + assert (~ markedSuccessful upload) as HS
        by (intros H; apply Hs in H; discriminate H).
      cbn. split; [ reflexivity | ]. split; [ reflexivity | ].
      split; [ split; [ discriminate | tauto ] | ].
      split; split; try discriminate; tauto.
Qed.

Lemma status_classification_witness :
  exists r,
    fst (GET "u7" processedBucket) = Returned r
    /\ statusCode r = 200%Z
    /\ member "uploadId" r = Some (JStr "u7")
    /\ (member "status" r = Some (JStr "error") <-> hasProcessingError processedUpload)
    /\ (member "status" r = Some (JStr "success")
        <-> ~ hasProcessingError processedUpload /\ markedSuccessful processedUpload)
    /\ (member "status" r = Some (JStr "unknown")
        <-> ~ hasProcessingError processedUpload /\ ~ markedSuccessful processedUpload).
Proof.
  apply (status_classification "u7" processedUpload processedBucket).
  - reflexivity.
  - reflexivity.
Defined.

(** X9 — when an upload is reported as processed, the answer carries a
    [completedAt] member exactly when the metadata has a
    [processing_completed_at] entry, with that entry's value; there is no
    [error] member. *)
Theorem status_success_members (uploadId : string) (upload : Upload) (w : World) :
  reachable w = true ->
  uploads w !! uploadId = Some upload ->
  (forall s, metaField (metadata upload) "processing_error" = Some (MStr s) ->
             s = EmptyString) ->
  metaField (metadata upload) "processing_status" = Some (MStr "success") ->
  exists r,
    fst (GET uploadId w) = Returned r
    /\ member "status" r = Some (JStr "success")
    /\ member "completedAt" r
       = metaJson <$> metaField (metadata upload) "processing_completed_at"
    /\ member "error" r = None.
Proof.
  intros Hr Hu He Hs. exists (project uploadId upload).
  split; [ rewrite GET_response, Hr, Hu; reflexivity | ].
  unfold project. rewrite !default_metadata_lookup, Hs.
  assert (Ht : metaTruthy (metaField (metadata upload) "processing_error") = false).
  { destruct (metaTruthy _) eqn:Ht; [ | reflexivity ].
    apply metaTruthy_true in Ht as [s [H1 H2]]. contradict H2. eauto. }
  rewrite Ht. cbn.
  destruct (metaField (metadata upload) "processing_completed_at"); cbn; auto.
Qed.

Lemma status_success_members_witness :
  exists r,
    fst (GET "u7" processedBucket) = Returned r
    /\ member "status" r = Some (JStr "success")
    /\ member "completedAt" r
       = metaJson <$> metaField (metadata processedUpload) "processing_completed_at"
    /\ member "error" r = None.
Proof.
  apply (status_success_members "u7" processedUpload processedBucket).
  - reflexivity.
  - reflexivity.
  - intros s H. vm_compute in H. injection H as <-. reflexivity.
  - reflexivity.
Defined.

(** X10 — no failure escapes the status endpoint, and it has two status
    codes only: 200 exactly when the datastore lookup finds an upload, 500
    in every other case, whether the lookup fails or finds nothing; the
    404 prepared for a falsy lookup result is never answered. *)
Theorem status_codes (uploadId : string) (w : World) :
  exists r,
    fst (GET uploadId w) = Returned r
    /\ (statusCode r = 200%Z <-> reachable w = true /\ is_Some (uploads w !! uploadId))
    /\ (statusCode r = 500%Z <-> reachable w = false \/ uploads w !! uploadId = None)
    /\ statusCode r <> 404%Z.
Proof.
  eexists. split; [ apply GET_response | ].
  destruct (reachable w).
  - destruct (uploads w !! uploadId) as [upload | ] eqn:Hu.
    + assert (Hc : statusCode (project uploadId upload) = 200%Z).
      { unfold project. destruct (metaTruthy _); [ reflexivity | ].
        destruct (equalsStr _ _); reflexivity. }
      rewrite Hc. split; [ | split ].
      * split; [ intros _; split; [ reflexivity | eauto ] | reflexivity ].
      * split; [ discriminate | intros [H | H]; discriminate H ].
      * discriminate.
    + cbn. split; [ | split ].
      * split; [ discriminate | intros [_ [u H]]; discriminate H ].
      * split; [ intros _; right; reflexivity | reflexivity ].
      * discriminate.
  - cbn. split; [ | split ].
    + split; [ discriminate | intros [H _]; discriminate H ].
    + split; [ intros _; left; reflexivity | reflexivity ].
    + discriminate.
Qed.

(** ** The upload page *)

Lemma split_nonempty (s : string) : split s <> [].
Proof.
  induction s as [ | c rest IH]; simpl; [ discriminate | ].
  destruct (Ascii.eqb c "/"); [ discriminate | ].
  destruct (split rest); [ contradiction | discriminate ].
Qed.

(** Splitting at a slash splits the list of parts. *)
Lemma split_app_slash (base rest : string) :
  split (base ++ String "/" rest) = (split base ++ split rest)%list.
Proof.
  induction base as [ | c base' IH]; simpl; [ reflexivity | ].
  destruct (Ascii.eqb c "/"); rewrite IH; [ reflexivity | ].
  pose proof (split_nonempty base') as Hne.
  destruct (split base') as [ | head tail]; [ contradiction | reflexivity ].
Qed.

Lemma split_without_slash (s : string) : includes s "/" = false -> split s = [s].
Proof.
  induction s as [ | c rest IH]; simpl; [ reflexivity | ].
  intros H. apply orb_false_iff in H as [Hc Hrest].
  destruct (Ascii.eqb_spec c "/") as [-> | Hne].
  - simpl in Hc. destruct rest; discriminate Hc.
  - rewrite (IH Hrest). destruct (Ascii.eqb c "/") eqn:E; [ | reflexivity ].
    apply Ascii.eqb_eq in E. contradiction.
Qed.

(** The last part of an upload URL is what follows its last slash. *)
Lemma last_segment (base uploadId : string) :
  includes uploadId "/" = false ->
  last (split (base ++ "/" ++ uploadId)) = Some uploadId.
Proof.
  intros H. change ("/" ++ uploadId) with (String "/" uploadId).
  rewrite split_app_slash, (split_without_slash _ H). apply last_snoc.
Qed.

(** The React state after the timer's callback depends on the React state
    before it, not on the browser console. *)
Lemma statusCallback_ui (reply : StatusFetch) (b b' : Browser) :
  ui b = ui b' -> ui (statusCallback reply b) = ui (statusCallback reply b').
Proof.
  intros H. unfold statusCallback, checkFailed, setUploadProgress, setUploadStatus,
    pageConsole.
  destruct reply as [e | [statusData | ]]; cbn; rewrite ?H; try reflexivity.
  destruct (getProp statusData "status") as [e | status]; cbn; rewrite ?H;
    try reflexivity.
  destruct (isString status "error").
  - destruct (getProp statusData "error"); cbn; rewrite ?H; reflexivity.
  - destruct (isString status "success"); cbn; rewrite ?H; reflexivity.
Qed.

(** X11 — for an upload URL whose last path segment is a non-empty id,
    [checkProcessingStatus] requests ["/api/upload-status/" ++ id] and
    nothing else: the page ends in the state the timer's callback reaches
    on that request's outcome. *)
Theorem check_queries_last_segment (fetchStatus : string -> StatusFetch)
        (base uploadId : string) (b : Browser) :
  includes uploadId "/" = false ->
  uploadId <> EmptyString ->
  ui (checkProcessingStatus fetchStatus (base ++ "/" ++ uploadId) b)
  = ui (statusCallback (fetchStatus ("/api/upload-status/" ++ uploadId)) b).
Proof.
  intros Hs Hne. unfold checkProcessingStatus.
  rewrite (last_segment base uploadId Hs).
  destruct (String.eqb_spec uploadId EmptyString) as [Heq | _]; [ contradiction | ].
  apply statusCallback_ui. reflexivity.
Qed.

Lemma check_queries_last_segment_witness :
  ui (checkProcessingStatus offline ("http://localhost:3001/api/upload" ++ "/" ++ "u1")
        transferDone)
  = ui (statusCallback (offline ("/api/upload-status/" ++ "u1")) transferDone).
Proof.
  apply (check_queries_last_segment offline "http://localhost:3001/api/upload" "u1"
           transferDone).
  - reflexivity.
  - discriminate.
Defined.

(** X12 — for an upload URL that ends in a slash, [checkProcessingStatus]
    makes no request: it only sets the status to the "could not determine
    upload ID" error, leaving file and progress as they were. *)
Theorem check_without_id_makes_no_request (fetchStatus : string -> StatusFetch)
        (base : string) (b : Browser) :
  checkProcessingStatus fetchStatus (base ++ "/") b
  = setUploadStatus "Error: Could not determine upload ID" b.
Proof.
  unfold checkProcessingStatus.
  change (base ++ "/") with (base ++ String "/" EmptyString).
  rewrite split_app_slash. simpl split. rewrite last_snoc. reflexivity.
Qed.

(** X13 — whatever error [onError] receives, the page ends with progress 0
    and a status that starts with ["Error:"]: the status paragraph is red,
    the progress bar is not rendered and, when a file is selected, the
    status paragraph and the reset button are. *)
Theorem on_error_shows_red (error : UploadError) (b : Browser) :
  uploadProgress (ui (onError error b)) = 0%Z
  /\ selectedFile (ui (onError error b)) = selectedFile (ui b)
  /\ uploadStatus (ui (onError error b)) = "Error: " ++ uploadErrorMessage error
  /\ bannerOf (uploadStatus (ui (onError error b))) = Red
  /\ showsProgressBar (ui (onError error b)) = false
  /\ showsStatus (ui (onError error b)) = bool_decide (is_Some (selectedFile (ui b)))
  /\ showsResetButton (ui (onError error b)) = bool_decide (is_Some (selectedFile (ui b))).
Proof.
  unfold onError, showsResetButton, showsStatus, showsProgressBar, bannerOf.
  cbn -[uploadErrorMessage].
  repeat split; destruct (selectedFile (ui b)); reflexivity.
Qed.

(** X14 — when the error given to [onError] has a non-empty message, that
    message is shown, whatever the HTTP status of the failed request: the
    texts written for 400, 413 and 500 are used only for an error without
    a message. *)
Theorem on_error_prefers_message (error : UploadError) (b : Browser) :
  errMessage error <> EmptyString ->
  uploadStatus (ui (onError error b)) = "Error: " ++ errMessage error.
Proof.
  intros Hne. unfold onError, uploadErrorMessage. cbn.
  destruct (String.eqb_spec (errMessage error) EmptyString) as [Heq | _];
    [ contradiction | reflexivity ].
Qed.

Lemma on_error_prefers_message_witness :
  uploadStatus (ui (onError tooLargeError transferDone))
  = "Error: " ++ errMessage tooLargeError.
Proof.
  apply (on_error_prefers_message tooLargeError transferDone).
  discriminate.
Defined.

(** ** The page and the status endpoint together *)

Lemma GET_found (uploadId : string) (upload : Upload) (w : World) :
  reachable w = true ->
  uploads w !! uploadId = Some upload ->
  fst (GET uploadId w) = Returned (project uploadId upload).
Proof. intros Hr Hu. rewrite GET_response, Hr, Hu. reflexivity. Qed.

Lemma project_error (uploadId : string) (upload : Upload) (s : string) :
  metaField (metadata upload) "processing_error" = Some (MStr s) ->
  s <> EmptyString ->
  project uploadId upload
  = {| statusCode := 200;
       body := JObj [("status", JStr "error"); ("error", JStr s);
                     ("uploadId", JStr uploadId)] |}.
Proof.
  intros He Hne. unfold project. rewrite !default_metadata_lookup, He. cbn.
  destruct (String.eqb_spec s EmptyString) as [Heq | _]; [ contradiction | reflexivity ].
Qed.

Lemma project_without_error (uploadId : string) (upload : Upload) :
  ~ hasProcessingError upload ->
  project uploadId upload
  = if equalsStr (metaField (metadata upload) "processing_status") "success" then
      {| statusCode := 200;
         body := JObj ([("status", JStr "success"); ("uploadId", JStr uploadId)]
                       ++ property "completedAt"
                            (metaField (metadata upload) "processing_completed_at"))%list |}
    else unknownAnswer uploadId.
Proof.
  intros Hn. unfold project. rewrite !default_metadata_lookup.
  destruct (metaTruthy _) eqn:Ht; [ | reflexivity ].
  apply metaTruthy_true in Ht. contradiction.
Qed.

Lemma project_unknown (uploadId : string) (upload : Upload) :
  ~ hasProcessingError upload ->
  ~ markedSuccessful upload ->
  project uploadId upload = unknownAnswer uploadId.
Proof.
  intros He Hs. rewrite (project_without_error _ _ He).
  destruct (equalsStr _ _) eqn:E; [ | reflexivity ].
  apply equalsStr_true in E. contradiction.
Qed.

(** X15 — when the metadata of the queried upload holds a non-empty
    [processing_error], the page that receives the endpoint's answer shows
    ["Error: "] followed by exactly that text, on a red paragraph, with
    progress 0. *)
Theorem page_shows_recorded_error (uploadId : string) (upload : Upload) (s : string)
        (w : World) (b : Browser) :
  reachable w = true ->
  uploads w !! uploadId = Some upload ->
  metaField (metadata upload) "processing_error" = Some (MStr s) ->
  s <> EmptyString ->
  exists r,
    fst (GET uploadId w) = Returned r
    /\ uploadStatus (pageAfter r b) = "Error: " ++ s
    /\ uploadProgress (pageAfter r b) = 0%Z
    /\ bannerOf (uploadStatus (pageAfter r b)) = Red.
Proof.
  intros Hr Hu He Hne. exists (project uploadId upload).
  split; [ apply GET_found; assumption | ].
  rewrite (project_error uploadId upload s He Hne).
  repeat split.
Qed.

Lemma page_shows_recorded_error_witness :
  exists r,
    fst (GET "u5" conflictedBucket) = Returned r
    /\ uploadStatus (pageAfter r transferDone) = "Error: " ++ "bad header"
    /\ uploadProgress (pageAfter r transferDone) = 0%Z
    /\ bannerOf (uploadStatus (pageAfter r transferDone)) = Red.
Proof.
  apply (page_shows_recorded_error "u5" conflictedUpload "bad header" conflictedBucket
           transferDone).
  - reflexivity.
  - reflexivity.
  - reflexivity.
  - discriminate.
Defined.

(** X16 — the page does not look at the HTTP status of the endpoint's
    answer: when the upload is not found or the datastore cannot be
    reached, the answer's status is not 200 and the page reports
    ["Upload completed, but processing status is unknown"] with progress
    100, as for an upload without a recorded outcome. *)
Theorem page_reads_failures_as_unknown (uploadId : string) (w : World) (b : Browser) :
  reachable w = false \/ uploads w !! uploadId = None ->
  exists r,
    fst (GET uploadId w) = Returned r
    /\ statusCode r <> 200%Z
    /\ uploadStatus (pageAfter r b) = "Upload completed, but processing status is unknown"
    /\ uploadProgress (pageAfter r b) = 100%Z.
Proof.
  intros H. eexists. split; [ apply GET_response | ].
  destruct (reachable w).
  - destruct H as [H | H]; [ discriminate H | ]. rewrite H.
    repeat split. discriminate.
  - repeat split. discriminate.
Qed.

Lemma page_reads_failures_as_unknown_witness :
  exists r,
    fst (GET "never-created" bucket) = Returned r
    /\ statusCode r <> 200%Z
    /\ uploadStatus (pageAfter r transferDone)
       = "Upload completed, but processing status is unknown"
    /\ uploadProgress (pageAfter r transferDone) = 100%Z.
Proof.
  apply (page_reads_failures_as_unknown "never-created" bucket transferDone).
  right. reflexivity.
Defined.

(** X17 — end to end: if the stored upload has no recorded outcome when
    its transfer completes, then whatever the Processing Service does, the
    page that polls after [onUploadFinish] reports the status as unknown
    on a blue paragraph with progress 100, and does not render the reset
    button. *)
Theorem page_after_finish_is_unknown (net : Network) (finished stored : Upload)
        (uploadId : string) (w : World) (b : Browser) :
  reachable w = true ->
  uploads w !! uploadId = Some stored ->
  ~ hasProcessingError stored ->
  ~ markedSuccessful stored ->
  exists r,
    fst (GET uploadId (snd (onUploadFinish net finished w))) = Returned r
    /\ uploadStatus (pageAfter r b) = "Upload completed, but processing status is unknown"
    /\ uploadProgress (pageAfter r b) = 100%Z
    /\ bannerOf (uploadStatus (pageAfter r b)) = Blue
    /\ showsResetButton (pageAfter r b) = false.
Proof.
  intros Hr Hu He Hs. exists (unknownAnswer uploadId).
  split.
  - rewrite GET_after_finish, (GET_found uploadId stored w Hr Hu).
    rewrite (project_unknown uploadId stored He Hs). reflexivity.
  - unfold pageAfter, showsResetButton. cbn.
    repeat split. destruct (selectedFile (ui b)); reflexivity.
Qed.

Lemma page_after_finish_is_unknown_witness :
  exists r,
    fst (GET "u1" (snd (onUploadFinish serviceAccepts csvUpload bucket))) = Returned r
    /\ uploadStatus (pageAfter r transferDone)
       = "Upload completed, but processing status is unknown"
    /\ uploadProgress (pageAfter r transferDone) = 100%Z
    /\ bannerOf (uploadStatus (pageAfter r transferDone)) = Blue
    /\ showsResetButton (pageAfter r transferDone) = false.
Proof.
  apply (page_after_finish_is_unknown serviceAccepts csvUpload csvUpload "u1" bucket
           transferDone).
  - reflexivity.
  - reflexivity.
  - intros [s [H _]]. vm_compute in H. discriminate H.
  - intros H. vm_compute in H. discriminate H.
Defined.

(** X18 — when the queried upload is marked successful and has no recorded
    error, the page reports success on a green paragraph with progress
    100, and renders the reset button if a file is selected. *)
Theorem page_shows_success (uploadId : string) (upload : Upload) (w : World) (b : Browser) :
  reachable w = true ->
  uploads w !! uploadId = Some upload ->
  ~ hasProcessingError upload ->
  markedSuccessful upload ->
  exists r,
    fst (GET uploadId w) = Returned r
    /\ uploadStatus (pageAfter r b) = "Upload and CSV processing completed successfully!"
    /\ uploadProgress (pageAfter r b) = 100%Z
    /\ bannerOf (uploadStatus (pageAfter r b)) = Green
    /\ showsResetButton (pageAfter r b) = bool_decide (is_Some (selectedFile (ui b))).
Proof.
  intros Hr Hu He Hs. exists (project uploadId upload).
  split; [ apply GET_found; assumption | ].
  rewrite (project_without_error uploadId upload He).
  apply equalsStr_true in Hs. rewrite Hs.
  unfold pageAfter, showsResetButton. cbn.
  repeat split. destruct (selectedFile (ui b)); reflexivity.
Qed.

Lemma page_shows_success_witness :
  exists r,
    fst (GET "u7" processedBucket) = Returned r
    /\ uploadStatus (pageAfter r transferDone)
       = "Upload and CSV processing completed successfully!"
    /\ uploadProgress (pageAfter r transferDone) = 100%Z
    /\ bannerOf (uploadStatus (pageAfter r transferDone)) = Green
    /\ showsResetButton (pageAfter r transferDone)
       = bool_decide (is_Some (selectedFile (ui transferDone))).
Proof.
  apply (page_shows_success "u7" processedUpload processedBucket transferDone).
  - reflexivity.
  - reflexivity.
  - intros [s [H Hne]]. vm_compute in H. injection H as <-. contradiction.
  - reflexivity.
Defined.

(** X19 — when the finished upload has no URL (null or empty),
    [onSuccess] makes no status request: it reports that the upload URL
    could not be determined, on a blue paragraph, keeps file and progress,
    and the reset button is not rendered. *)
Theorem on_success_without_url (fetchStatus : string -> StatusFetch) (payload : Json)
        (url : option string) (b : Browser) :
  url = None \/ url = Some EmptyString ->
  uploadStatus (ui (onSuccess fetchStatus payload url b))
  = "Upload completed, but could not determine upload URL"
  /\ uploadProgress (ui (onSuccess fetchStatus payload url b)) = uploadProgress (ui b)
  /\ selectedFile (ui (onSuccess fetchStatus payload url b)) = selectedFile (ui b)
  /\ bannerOf (uploadStatus (ui (onSuccess fetchStatus payload url b))) = Blue
  /\ showsResetButton (ui (onSuccess fetchStatus payload url b)) = false.
Proof.
  intros [-> | ->]; unfold onSuccess, showsResetButton; cbn;
    repeat split; destruct (selectedFile (ui b)); reflexivity.
Qed.

Lemma on_success_without_url_witness :
  uploadStatus (ui (onSuccess offline JNull None transferDone))
  = "Upload completed, but could not determine upload URL".
Proof.
  apply (on_success_without_url offline JNull None transferDone).
  left. reflexivity.
Defined.

(** X20 — when the status request is rejected, or its body is not JSON, or
    its body is the JSON value [null], the timer's callback reports
    ["Upload completed, but could not verify processing status"] with
    progress 100 and keeps the selected file. *)
Theorem status_check_failures (reply : StatusFetch) (b : Browser) :
  (exists e, reply = FetchRejects e)
  \/ reply = FetchAnswers None
  \/ reply = FetchAnswers (Some JNull) ->
  ui (statusCallback reply b)
  = {| selectedFile := selectedFile (ui b);
       uploadProgress := 100;
       uploadStatus := "Upload completed, but could not verify processing status" |}.
Proof.
  intros [[e ->] | [-> | ->]]; reflexivity.
Qed.

Lemma status_check_failures_witness :
  ui (statusCallback (offline "/api/upload-status/u1") transferDone)
  = {| selectedFile := selectedFile (ui transferDone);
       uploadProgress := 100;
       uploadStatus := "Upload completed, but could not verify processing status" |}.
Proof.
  apply (status_check_failures (offline "/api/upload-status/u1") transferDone).
  left. exists fetchFailed. reflexivity.
Defined.

Lemma isString_false (v : Value) (lit : string) :
  v <> Some (JStr lit) -> isString v lit = false.
Proof.
  destruct v as [[ | | | s | | ] | ]; try reflexivity.
  intros H. simpl. destruct (String.eqb_spec s lit) as [-> | _];
    [ contradiction | reflexivity ].
Qed.

(** X21 — an answer whose [status] is ["error"] but that has no [error]
    member is shown as ["Error: undefined"], with progress 0. *)
Theorem status_error_without_text (fields : list (string * Json)) (b : Browser) :
  assoc "status" fields = Some (JStr "error") ->
  assoc "error" fields = None ->
  uploadStatus (ui (statusCallback (FetchAnswers (Some (JObj fields))) b))
  = "Error: undefined"
  /\ uploadProgress (ui (statusCallback (FetchAnswers (Some (JObj fields))) b)) = 0%Z.
Proof.
  intros Hs He. unfold statusCallback. cbn -[assoc]. rewrite Hs, He.
  split; reflexivity.
Qed.

Lemma status_error_without_text_witness :
  uploadStatus (ui (statusCallback (FetchAnswers (Some (JObj [("status", JStr "error")])))
                      transferDone))
  = "Error: undefined"
  /\ uploadProgress (ui (statusCallback
                           (FetchAnswers (Some (JObj [("status", JStr "error")])))
                           transferDone)) = 0%Z.
Proof.
  apply (status_error_without_text [("status", JStr "error")] transferDone).
  - reflexivity.
  - reflexivity.
Defined.

(** X22 — the callback decides on the [status] member alone: an object
    whose [status] is neither ["error"] nor ["success"], or is missing, is
    shown as unknown with progress 100, whatever else the object holds. *)
Theorem status_other_is_unknown (fields : list (string * Json)) (b : Browser) :
  assoc "status" fields <> Some (JStr "error") ->
  assoc "status" fields <> Some (JStr "success") ->
  uploadStatus (ui (statusCallback (FetchAnswers (Some (JObj fields))) b))
  = "Upload completed, but processing status is unknown"
  /\ uploadProgress (ui (statusCallback (FetchAnswers (Some (JObj fields))) b)) = 100%Z.
Proof.
  intros Hne Hns. unfold statusCallback. cbn -[assoc].
  rewrite (isString_false _ _ Hne), (isString_false _ _ Hns).
  split; reflexivity.
Qed.

Lemma status_other_is_unknown_witness :
  uploadStatus (ui (statusCallback
                      (FetchAnswers (Some (JObj [("error", JStr "Upload not found")])))
                      transferDone))
  = "Upload completed, but processing status is unknown"
  /\ uploadProgress (ui (statusCallback
                           (FetchAnswers (Some (JObj [("error", JStr "Upload not found")])))
                           transferDone)) = 100%Z.
Proof.
  apply (status_other_is_unknown [("error", JStr "Upload not found")] transferDone).
  - discriminate.
  - discriminate.
Defined.
